(** * Fourhills: the stat-block renderer ([fourhills/stats.py])

    A shallow embedding of [StatBlock.calculate_ability_modifier],
    [StatBlock.summary_info] and [StatBlock.battle_info], and the properties
    of the rendered line lists.

    Conventions of the embedding:
    - a Python [int] is a [Z], a [str] a [string], a [list] a [list], an
      insertion-ordered [dict] with [str] keys an association list;
    - [a / b] on two ints is the correctly rounded binary64 quotient, as
      CPython computes it, and [math.floor] is exact on the result;
    - a method body runs in a small state-and-exception monad whose state is
      the frame of the call: the object [self] and the local list [lines];
    - memory exhaustion is not modelled: strings and lists are unbounded. *)

From Stdlib Require Import ZArith String Ascii List Lia Bool DecimalString.
From Stdlib Require Import Permutation Sorted.
Import ListNotations.
Local Open Scope string_scope.
Local Open Scope Z_scope.

(** ** Python exceptions raised by the modelled code *)

Inductive exc : Type :=
| ValueError (msg : string)
| ZeroDivisionError
| OverflowError
| KeyError (key : string).

(** A computation that either raises or returns. *)
Definition result (A : Type) : Type := (exc + A)%type.

Definition rbind {A B : Type} (r : result A) (f : A -> result B) : result B :=
  match r with
  | inl e => inl e
  | inr a => f a
  end.

(** ** Integers divided as floats: [math.floor(a / b)] *)

Module Float.

(** A finite binary64 value [mant * 2 ^ expo], with [|mant| <= 2 ^ 53]. *)
Record binary64 : Type := mk64 { mant : Z; expo : Z }.

(** The integer nearest to [n / d] for [0 < d], ties to the even one. *)
Definition round_half_even (n d : Z) : Z :=
  let q := n / d in
  let r := n mod d in
  if 2 * r <? d then q
  else if d <? 2 * r then q + 1
  else if Z.even q then q else q + 1.

(** [scaled_leb x k y] decides [x * 2 ^ k <= y] for an exponent of either
    sign. *)
Definition scaled_leb (x k y : Z) : bool :=
  if 0 <=? k then x * 2 ^ k <=? y else x <=? y * 2 ^ (- k).

(** [floor (log2 (a / b))] for [0 < a] and [0 < b]. *)
Definition ilog2_ratio (a b : Z) : Z :=
  let d := Z.log2 a - Z.log2 b in
  if scaled_leb b d a then d else d - 1.

(** The quotient of two positive integers rounded to 53 significant bits
    (fewer in the subnormal range), or [None] when it rounds to a value
    beyond the largest finite binary64. *)
Definition divide_pos (a b : Z) : option binary64 :=
  let e := Z.max (ilog2_ratio a b - 52) (-1074) in
  let m := if 0 <=? e then round_half_even a (b * 2 ^ e)
           else round_half_even (a * 2 ^ (- e)) b in
  if (m =? 0) then Some (mk64 0 0)
  else if 1024 <=? Z.log2 m + e then None
  else Some (mk64 m e).

(** [a / b] on Python ints (true division). *)
Definition truediv (a b : Z) : result binary64 :=
  if b =? 0 then inl ZeroDivisionError
  else if a =? 0 then inr (mk64 0 0)
  else match divide_pos (Z.abs a) (Z.abs b) with
       | None => inl OverflowError
       | Some x => inr (mk64 (Z.sgn a * Z.sgn b * mant x) (expo x))
       end.

(** [math.floor(x)] on a finite float. *)
Definition floor (x : binary64) : Z :=
  if 0 <=? expo x then mant x * 2 ^ expo x else mant x / 2 ^ (- expo x).

(** [math.floor(a / b)]. *)
Definition floor_truediv (a b : Z) : result Z :=
  rbind (truediv a b) (fun x => inr (floor x)).

End Float.

(** ** Python built-ins used by the renderer *)

(** The truth value of an object in a condition ([if x:], [x or y]). *)
Class Truthy (A : Type) : Type := truth : A -> bool.

#[export] Instance Truthy_list {A : Type} : Truthy (list A) :=
  fun l => match l with [] => false | _ :: _ => true end.

#[export] Instance Truthy_str : Truthy string :=
  fun s => match s with EmptyString => false | String _ _ => true end.

#[export] Instance Truthy_int : Truthy Z :=
  fun z => negb (z =? 0).

(** [None] is false; any other object has its own truth value. *)
#[export] Instance Truthy_optional {A : Type} `{Truthy A} : Truthy (option A) :=
  fun o => match o with None => false | Some x => truth x end.

Module Py.

(** [len(s)] *)
Definition len (s : string) : Z := Z.of_nat (String.length s).

(** [str(n)] and [f"{n:d}"] *)
Definition str_int (n : Z) : string := NilZero.string_of_int (Z.to_int n).

(** [f"{n:+d}"]: the sign is always shown *)
Definition str_int_signed (n : Z) : string :=
  if 0 <=? n then "+" ++ str_int n else str_int n.

Fixpoint repeat_str (s : string) (n : nat) : string :=
  match n with
  | O => EmptyString
  | S n' => s ++ repeat_str s n'
  end.

(** [s * n]: the empty string when [n <= 0] *)
Definition str_mul (s : string) (n : Z) : string := repeat_str s (Z.to_nat n).

(** [sep.join(parts)] *)
Definition join (sep : string) (parts : list string) : string :=
  String.concat sep parts.

Definition is_lower (c : ascii) : bool :=
  let n := nat_of_ascii c in (97 <=? n)%nat && (n <=? 122)%nat.

Definition is_upper (c : ascii) : bool :=
  let n := nat_of_ascii c in (65 <=? n)%nat && (n <=? 90)%nat.

Definition upper_char (c : ascii) : ascii :=
  if is_lower c then ascii_of_nat (nat_of_ascii c - 32) else c.

Definition lower_char (c : ascii) : ascii :=
  if is_upper c then ascii_of_nat (nat_of_ascii c + 32) else c.

Fixpoint lower (s : string) : string :=
  match s with
  | EmptyString => EmptyString
  | String c s' => String (lower_char c) (lower s')
  end.

(** [s.capitalize()] on ASCII text: first character upper-cased, the rest
    lower-cased. *)
Definition capitalize (s : string) : string :=
  match s with
  | EmptyString => EmptyString
  | String c s' => String (upper_char c) (lower s')
  end.

(** A [dict] with [str] keys, in insertion order. *)
Definition dict (V : Type) : Type := list (string * V).

(** [d.items()] *)
Definition items {V : Type} (d : dict V) : list (string * V) := d.

(** [len(d)] *)
Definition dict_len {V : Type} (d : dict V) : Z := Z.of_nat (List.length d).

(** [key in d] *)
Fixpoint contains {V : Type} (key : string) (d : dict V) : bool :=
  match d with
  | [] => false
  | (k, _) :: d' => if String.eqb k key then true else contains key d'
  end.

(** [d[key]] *)
Fixpoint getitem {V : Type} (d : dict V) (key : string) : result V :=
  match d with
  | [] => inl (KeyError key)
  | (k, v) :: d' => if String.eqb k key then inr v else getitem d' key
  end.

(** [x or default] on an optional list *)
Definition or_else {A : Type} (x : option (list A)) (default : list A)
  : list A :=
  match x with
  | Some l => if truth l then l else default
  | None => default
  end.

End Py.

(** ** The collaborators that [stats.py] imports *)

(** [fourhills.text_utils]: the three formatters [stats.py] calls.  They are
    pure functions of their arguments. *)
Class text_utils : Type := {
  centre_pad : string -> Z -> string;
  format_indented_paragraph : string -> Z -> list string;
  format_list : string -> list string -> Z -> list string
}.

(** Python floats that are only stored and printed (the challenge rating):
    the type and [format(x)] with the empty format specification. *)
Class py_float : Type := {
  float : Type;
  str_float : float -> string
}.

(** ** [StatBlock] *)

Record StatBlock `{py_float} : Type := {
  name : string;
  size : string;
  creature_type : string;
  alignment : string;
  ac : string;
  hp : string;
  speed : string;
  ability : Py.dict Z;
  challenge : float;
  passive_perception : Z;
  saving_throws : option (Py.dict string);
  skills : option (Py.dict string);
  damage_vulnerabilities : option (list string);
  damage_resistances : option (list string);
  damage_immunities : option (list string);
  condition_immunities : option (list string);
  special_senses : option (Py.dict string);
  languages : option (list string);
  special_traits : option (Py.dict string);
  melee_attacks : option (Py.dict (Py.dict string));
  ranged_attacks : option (Py.dict (Py.dict string));
  multiattack : option string;
  other_actions : option (Py.dict string);
  description : option string
}.

(** [StatBlock.calculate_ability_modifier] (a static method). *)
Definition calculate_ability_modifier (ability_score : Z) : result Z :=
  Float.floor_truediv (ability_score - 10) 2.

#[export] Instance Truthy_dict {V : Type} : Truthy (Py.dict V) :=
  fun d => match d with [] => false | _ :: _ => true end.

(** ** Method bodies: a state-and-exception monad over the call frame *)

Section Methods.

Context {FL : py_float} {TU : text_utils}.

(** The local list variables of the two methods. *)
Inductive local : Type :=
| lines
| ability_name_strings
| ability_score_strings.

(** The frame of a call: the object bound to [self] and the locals. *)
Record frame : Type := {
  self : StatBlock;
  v_lines : list string;
  v_ability_name_strings : list string;
  v_ability_score_strings : list string
}.

Definition get_local (x : local) (fr : frame) : list string :=
  match x with
  | lines => v_lines fr
  | ability_name_strings => v_ability_name_strings fr
  | ability_score_strings => v_ability_score_strings fr
  end.

Definition set_local (x : local) (l : list string) (fr : frame) : frame :=
  match x with
  | lines =>
      {| self := self fr; v_lines := l;
         v_ability_name_strings := v_ability_name_strings fr;
         v_ability_score_strings := v_ability_score_strings fr |}
  | ability_name_strings =>
      {| self := self fr; v_lines := v_lines fr;
         v_ability_name_strings := l;
         v_ability_score_strings := v_ability_score_strings fr |}
  | ability_score_strings =>
      {| self := self fr; v_lines := v_lines fr;
         v_ability_name_strings := v_ability_name_strings fr;
         v_ability_score_strings := l |}
  end.

(** A statement or expression: from a frame, either an exception together
    with the frame at the raise, or a value and the frame after it. *)
Definition M (A : Type) : Type := frame -> (exc * frame) + (A * frame).

Definition ret {A : Type} (a : A) : M A := fun fr => inr (a, fr).

Definition bind {A B : Type} (c : M A) (k : A -> M B) : M B :=
  fun fr =>
    match c fr with
    | inl err => inl err
    | inr (a, fr') => k a fr'
    end.

(** [raise e] *)
Definition raise {A : Type} (e : exc) : M A := fun fr => inl (e, fr).

(** Evaluation of a pure expression that may raise. *)
Definition eval {A : Type} (r : result A) : M A :=
  fun fr =>
    match r with
    | inl e => inl (e, fr)
    | inr a => inr (a, fr)
    end.

(** [self.field] *)
Definition attr {A : Type} (field : StatBlock -> A) : M A :=
  fun fr => inr (field (self fr), fr).

(** [x = list()] *)
Definition new_list (x : local) : M unit :=
  fun fr => inr (tt, set_local x [] fr).

(** The list bound to [x]. *)
Definition var (x : local) : M (list string) :=
  fun fr => inr (get_local x fr, fr).

(** [x.append(s)] *)
Definition append (x : local) (s : string) : M unit :=
  fun fr => inr (tt, set_local x (get_local x fr ++ [s]) fr).

(** [x.extend(l)] *)
Definition extend (x : local) (l : list string) : M unit :=
  fun fr => inr (tt, set_local x (get_local x fr ++ l) fr).

(** [for a in l: body] *)
Fixpoint for_each {A : Type} (l : list A) (body : A -> M unit) : M unit :=
  match l with
  | [] => ret tt
  | a :: l' => bind (body a) (fun _ => for_each l' body)
  end.

(** [if x: body], where the body uses the (then not [None]) object [x]. *)
Definition if_truthy {A : Type} `{Truthy A} (x : option A)
  (body : A -> M unit) : M unit :=
  match x with
  | Some a => if truth a then body a else ret tt
  | None => ret tt
  end.

End Methods.

Declare Scope py_scope.
Delimit Scope py_scope with py.
Notation "x <- c ;; k" := (bind c (fun x => k))
  (at level 100, c at next level, right associativity) : py_scope.
Notation "' pat <- c ;; k" := (bind c (fun x => match x with pat => k end))
  (at level 100, pat pattern, c at next level, right associativity) : py_scope.
Notation "c ;; k" := (bind c (fun _ => k))
  (at level 100, right associativity) : py_scope.

Section Rendering.

Context {FL : py_float} {TU : text_utils}.
Local Open Scope py_scope.

(** [StatBlock.summary_info] *)
Definition summary_info (line_width : Z) (quantity : option Z)
  : M (list string) :=
  new_list lines ;;
  header_text <-
    match quantity with
    | Some q =>
        if truth q
        then (name <- attr name ;; ret (name ++ " x" ++ Py.str_int q)%string)
        else attr name
    | None => attr name
    end ;;
  append lines (centre_pad header_text line_width) ;;
  append lines (Py.str_mul "=" line_width) ;;
  (* Size, type and alignment *)
  size <- attr size ;;
  creature_type <- attr creature_type ;;
  alignment <- attr alignment ;;
  append lines
    (Py.capitalize size ++ " " ++ creature_type ++ ", " ++ alignment)%string ;;
  var lines.

(** The message of the width check of [battle_info]. *)
Definition width_message : string :=
  "Width must be at least 56 for there to be room for all scores.".

(** [StatBlock.battle_info] *)
Definition battle_info (line_width : Z) : M (list string) :=
  if line_width <? 56 then raise (ValueError width_message) else
  (* List to hold the lines of the output. *)
  new_list lines ;;
  (* AC, HP, speed *)
  ac <- attr ac ;;
  append lines ("AC " ++ ac)%string ;;
  hp <- attr hp ;;
  append lines ("HP " ++ hp)%string ;;
  speed <- attr speed ;;
  append lines ("Speed " ++ speed)%string ;;
  (* Separator *)
  append lines (Py.str_mul "-" line_width) ;;
  (* Abilities *)
  ability <- attr ability ;;
  ability_width <- eval (Float.floor_truediv line_width (Py.dict_len ability)) ;;
  new_list ability_name_strings ;;
  new_list ability_score_strings ;;
  for_each (Py.items ability) (fun '(ability, score) =>
    append ability_name_strings (centre_pad ability ability_width) ;;
    modifier <- eval (calculate_ability_modifier score) ;;
    append ability_score_strings
      (centre_pad
         (Py.str_int score ++ "(" ++ Py.str_int_signed modifier ++ ")")%string
         ability_width)) ;;
  names <- var ability_name_strings ;;
  append lines (centre_pad (Py.join EmptyString names) line_width) ;;
  scores <- var ability_score_strings ;;
  append lines (centre_pad (Py.join EmptyString scores) line_width) ;;
  (* Separator *)
  append lines (Py.str_mul "-" line_width) ;;
  (* Saving throws *)
  saving_throws <- attr saving_throws ;;
  if_truthy saving_throws (fun d =>
    let throws :=
      map (fun '(throw, value) => (throw ++ " " ++ value)%string) (Py.items d) in
    extend lines (format_list "Saving throws" throws line_width)) ;;
  (* Skills *)
  skills <- attr skills ;;
  if_truthy skills (fun d =>
    let skill_list :=
      map (fun '(skill, value) => (skill ++ " " ++ value)%string) (Py.items d) in
    extend lines (format_list "Skills" skill_list line_width)) ;;
  (* Vulnerabilities *)
  damage_vulnerabilities <- attr damage_vulnerabilities ;;
  if_truthy damage_vulnerabilities (fun l =>
    extend lines (format_list "Damage vulnerabilities" l line_width)) ;;
  (* Resistances *)
  damage_resistances <- attr damage_resistances ;;
  if_truthy damage_resistances (fun l =>
    extend lines (format_list "Damage resistances" l line_width)) ;;
  (* Immunities *)
  damage_immunities <- attr damage_immunities ;;
  if_truthy damage_immunities (fun l =>
    extend lines (format_list "Damage immunities" l line_width)) ;;
  condition_immunities <- attr condition_immunities ;;
  if_truthy condition_immunities (fun l =>
    extend lines (format_list "Condition immunities" l line_width)) ;;
  (* Passive perception *)
  passive_perception <- attr passive_perception ;;
  append lines ("Passive perception: " ++ Py.str_int passive_perception)%string ;;
  (* Senses *)
  special_senses <- attr special_senses ;;
  if_truthy special_senses (fun d =>
    let senses :=
      map (fun '(sense, value) => (sense ++ " " ++ value)%string) (Py.items d) in
    extend lines (format_list "Senses" senses line_width)) ;;
  (* Languages *)
  languages <- attr languages ;;
  extend lines
    (format_list "Languages" (Py.or_else languages ["none"%string]) line_width) ;;
  (* Challenge rating *)
  challenge <- attr challenge ;;
  append lines ("Challenge: " ++ str_float challenge)%string ;;
  (* Separator *)
  append lines EmptyString ;;
  append lines (centre_pad "Special traits" line_width) ;;
  append lines (Py.str_mul "-" line_width) ;;
  special_traits <- attr special_traits ;;
  if_truthy special_traits (fun d =>
    for_each (Py.items d) (fun '(name, text) =>
      extend lines
        (format_indented_paragraph
           (Py.capitalize name ++ ": " ++ text)%string line_width))) ;;
  (* Separator and title *)
  append lines EmptyString ;;
  append lines (centre_pad "Actions" line_width) ;;
  append lines (Py.str_mul "-" line_width) ;;
  (* Melee attacks *)
  melee_attacks <- attr melee_attacks ;;
  if_truthy melee_attacks (fun d =>
    for_each (Py.items d) (fun '(name, details) =>
      hit <- eval (Py.getitem details "hit") ;;
      reach <- eval (Py.getitem details "reach") ;;
      targets <- eval (Py.getitem details "targets") ;;
      damage <- eval (Py.getitem details "damage") ;;
      let details_formatted :=
        (Py.capitalize name ++ ": melee weapon attack, "
         ++ hit ++ " to hit, reach " ++ reach ++ ", "
         ++ targets ++ ". "
         ++ "Hit damage: " ++ damage ++ ".")%string in
      details_formatted <-
        (if Py.contains "info" details
         then (info <- eval (Py.getitem details "info") ;;
               ret (details_formatted ++ " " ++ info ++ ".")%string)
         else ret details_formatted) ;;
      extend lines (format_indented_paragraph details_formatted line_width))) ;;
  (* Ranged attacks *)
  ranged_attacks <- attr ranged_attacks ;;
  if_truthy ranged_attacks (fun d =>
    for_each (Py.items d) (fun '(name, details) =>
      hit <- eval (Py.getitem details "hit") ;;
      range <- eval (Py.getitem details "range") ;;
      targets <- eval (Py.getitem details "targets") ;;
      damage <- eval (Py.getitem details "damage") ;;
      let details_formatted :=
        (Py.capitalize name ++ ": ranged weapon attack, "
         ++ hit ++ " to hit, range " ++ range ++ ","
         ++ targets ++ ". "
         ++ "Hit damage: " ++ damage ++ ".")%string in
      details_formatted <-
        (if Py.contains "info" details
         then (info <- eval (Py.getitem details "info") ;;
               ret (details_formatted ++ " " ++ info ++ ".")%string)
         else ret details_formatted) ;;
      extend lines (format_indented_paragraph details_formatted line_width))) ;;
  multiattack <- attr multiattack ;;
  if_truthy multiattack (fun text =>
    extend lines
      (format_indented_paragraph ("Multiattack: " ++ text)%string line_width)) ;;
  (* Other actions *)
  other_actions <- attr other_actions ;;
  if_truthy other_actions (fun d =>
    for_each (Py.items d) (fun '(name, text) =>
      let action_formatted := (Py.capitalize name ++ ": " ++ text)%string in
      extend lines (format_indented_paragraph action_formatted line_width))) ;;
  append lines EmptyString ;;
  description <- attr description ;;
  if_truthy description (fun text =>
    extend lines (format_indented_paragraph text line_width)) ;;
  var lines.

(** The frame in which a method body starts. *)
Definition enter (st : StatBlock) : frame :=
  {| self := st; v_lines := []; v_ability_name_strings := [];
     v_ability_score_strings := [] |}.

(** A call [st.method(...)]: what the caller receives, and the object after
    the call. *)
Definition call {A : Type} (body : M A) (st : StatBlock)
  : result A * StatBlock :=
  match body (enter st) with
  | inl (e, fr) => (inl e, self fr)
  | inr (a, fr) => (inr a, self fr)
  end.

End Rendering.

(** ** [fourhills.text_utils], from its specification *)

Module TextUtils.

Definition spaces (n : Z) : string := Py.str_mul " " n.

(** Modelled from the spec: [text_utils.centre_pad] is not among the
    sources.  The text is centred in a field of [width] characters with
    space padding; an odd surplus puts the extra space on the right; a text
    longer than the field is emitted as it is. *)
Definition centre_pad (text : string) (width : Z) : string :=
  let surplus := width - Py.len text in
  if surplus <=? 0 then text
  else (spaces (surplus / 2) ++ text ++ spaces (surplus - surplus / 2))%string.

Definition is_space (c : ascii) : bool :=
  let n := nat_of_ascii c in
  ((9 <=? n)%nat && (n <=? 13)%nat) || (n =? 32)%nat.

(** [cur] is the token being read, in reverse. *)
Fixpoint split_from (cur : string) (s : string) : list string :=
  let flush rest :=
    match cur with
    | EmptyString => rest
    | String _ _ => cur :: rest
    end in
  match s with
  | EmptyString => flush []
  | String c s' =>
      if is_space c then flush (split_from EmptyString s')
      else split_from (cur ++ String c EmptyString) s'
  end.

(** [text.split()]: the maximal runs of characters that are not white
    space. *)
Definition split (text : string) : list string := split_from EmptyString text.

(** Greedy filling: a token joins the current line while the line, one
    space and the token fit in [width]; otherwise the line is emitted and
    the token opens a continuation line after the hanging indent. *)
Fixpoint fill (width : Z) (indent : string) (cur : string)
  (tokens : list string) : list string :=
  match tokens with
  | [] => [cur]
  | t :: ts =>
      if Py.len cur + 1 + Py.len t <=? width
      then fill width indent (cur ++ " " ++ t)%string ts
      else cur :: fill width indent (indent ++ t)%string ts
  end.

(** Modelled from the spec: [text_utils.format_indented_paragraph] is not
    among the sources.  Greedy word wrap of the white-space separated
    tokens; lines are not padded; every line after the first starts with a
    hanging indent of [indent] spaces, whose size the spec leaves open;
    the empty text gives no line. *)
Definition format_indented_paragraph (indent : nat) (text : string)
  (width : Z) : list string :=
  match split text with
  | [] => []
  | t :: ts => fill width (spaces (Z.of_nat indent)) t ts
  end.

(** Modelled from the spec: [text_utils.format_list] is not among the
    sources.  The items joined with [", "], after the title and [": "],
    wrapped as a paragraph. *)
Definition format_list (indent : nat) (title : string) (items : list string)
  (width : Z) : list string :=
  format_indented_paragraph indent
    (title ++ ": " ++ Py.join ", " items)%string width.

(** The three formatters as the module [stats.py] imports. *)
Definition model (indent : nat) : text_utils :=
  Build_text_utils centre_pad (format_indented_paragraph indent)
    (format_list indent).

End TextUtils.

(** Floats with an integral value below [10 ^ 16], which print as the integer
    followed by [.0]. *)
Definition whole_float : py_float :=
  {| float := Z; str_float := fun z => (Py.str_int z ++ ".0")%string |}.

(** ** The rendered stat block, section by section

    What [battle_info] is said to emit, written as a list expression: each
    section below is one entry of the fixed order, and [battle_info_sections]
    puts them together.  The body above is compared with it further down. *)

Section Sections.

Context {FL : py_float} {TU : text_utils}.
Variable st : StatBlock.
Variable line_width : Z.

(** An exception in [r], or the lines [out] followed by those of [r]. *)
Definition tell (out : list string) (r : result (list string))
  : result (list string) :=
  rbind r (fun rest => inr (out ++ rest)%list).

(** The lines of a loop whose body may raise: those of each element in
    turn, up to the first exception. *)
Fixpoint collect {A : Type} (h : A -> result (list string)) (l : list A)
  : result (list string) :=
  match l with
  | [] => inr []
  | a :: l' => rbind (h a) (fun out => tell out (collect h l'))
  end.

(** The lines of an optional section: none when the field is [None] or
    empty. *)
Definition optional {A : Type} `{Truthy A} (x : option A)
  (g : A -> list string) : list string :=
  match x with
  | Some a => if truth a then g a else []
  | None => []
  end.

Definition separator : string := Py.str_mul "-" line_width.

Definition ac_line : string := "AC " ++ ac st.
Definition hp_line : string := "HP " ++ hp st.
Definition speed_line : string := "Speed " ++ speed st.

(** The width of one ability cell. *)
Definition ability_width : result Z :=
  Float.floor_truediv line_width (Py.dict_len (ability st)).

Definition name_cell (width : Z) (entry : string * Z) : string :=
  centre_pad (fst entry) width.

(** The text of a score cell: the score, then the signed modifier in
    parentheses. *)
Definition score_text (score modifier : Z) : string :=
  Py.str_int score ++ "(" ++ Py.str_int_signed modifier ++ ")".

Definition score_cell (width : Z) (entry : string * Z) : result string :=
  rbind (calculate_ability_modifier (snd entry)) (fun modifier =>
    inr (centre_pad (score_text (snd entry) modifier) width)).

Fixpoint score_cells (width : Z) (l : list (string * Z))
  : result (list string) :=
  match l with
  | [] => inr []
  | entry :: l' =>
      rbind (score_cell width entry) (fun cell =>
        rbind (score_cells width l') (fun cells => inr (cell :: cells)))
  end.

Definition ability_name_row (width : Z) : string :=
  centre_pad (Py.join EmptyString (map (name_cell width) (ability st))) line_width.

Definition ability_score_row (cells : list string) : string :=
  centre_pad (Py.join EmptyString cells) line_width.

(** The two ability rows. *)
Definition ability_rows : result (list string) :=
  rbind ability_width (fun width =>
    rbind (score_cells width (ability st)) (fun cells =>
      inr [ability_name_row width; ability_score_row cells])).

Definition pair_text (entry : string * string) : string :=
  let '(label, value) := entry in label ++ " " ++ value.

(** A titled list of label and value pairs. *)
Definition pairs_section (title : string) (x : option (Py.dict string))
  : list string :=
  optional x (fun d => format_list title (map pair_text (Py.items d)) line_width).

(** A titled list of strings. *)
Definition list_section (title : string) (x : option (list string))
  : list string :=
  optional x (fun l => format_list title l line_width).

Definition passive_perception_line : string :=
  "Passive perception: " ++ Py.str_int (passive_perception st).

Definition languages_lines : list string :=
  format_list "Languages" (Py.or_else (languages st) ["none"%string]) line_width.

Definition challenge_line : string :=
  "Challenge: " ++ str_float (challenge st).

(** A named paragraph: the capitalised name, a colon and the text. *)
Definition named_paragraph (entry : string * string) : list string :=
  format_indented_paragraph
    (Py.capitalize (fst entry) ++ ": " ++ snd entry) line_width.

Definition named_paragraphs (x : option (Py.dict string)) : list string :=
  optional x (fun d => flat_map named_paragraph (Py.items d)).

(** The optional trailing sentence of an attack. *)
Definition with_info (details : Py.dict string) (text : string)
  : result string :=
  if Py.contains "info" details
  then rbind (Py.getitem details "info") (fun info =>
         inr (text ++ " " ++ info ++ "."))
  else inr text.

Definition melee_text (entry : string * Py.dict string) : result string :=
  let details := snd entry in
  rbind (Py.getitem details "hit") (fun hit =>
  rbind (Py.getitem details "reach") (fun reach =>
  rbind (Py.getitem details "targets") (fun targets =>
  rbind (Py.getitem details "damage") (fun damage =>
    with_info details
      (Py.capitalize (fst entry) ++ ": melee weapon attack, "
       ++ hit ++ " to hit, reach " ++ reach ++ ", "
       ++ targets ++ ". "
       ++ "Hit damage: " ++ damage ++ "."))))).

Definition ranged_text (entry : string * Py.dict string) : result string :=
  let details := snd entry in
  rbind (Py.getitem details "hit") (fun hit =>
  rbind (Py.getitem details "range") (fun range =>
  rbind (Py.getitem details "targets") (fun targets =>
  rbind (Py.getitem details "damage") (fun damage =>
    with_info details
      (Py.capitalize (fst entry) ++ ": ranged weapon attack, "
       ++ hit ++ " to hit, range " ++ range ++ ","
       ++ targets ++ ". "
       ++ "Hit damage: " ++ damage ++ "."))))).

(** The paragraphs of an attack table, one per attack. *)
Definition attack_paragraphs
  (text : string * Py.dict string -> result string)
  (x : option (Py.dict (Py.dict string))) : result (list string) :=
  match x with
  | Some d =>
      if truth d
      then collect (fun entry =>
             rbind (text entry) (fun t =>
               inr (format_indented_paragraph t line_width))) (Py.items d)
      else inr []
  | None => inr []
  end.

Definition multiattack_lines : list string :=
  optional (multiattack st) (fun text =>
    format_indented_paragraph ("Multiattack: " ++ text) line_width).

Definition description_lines : list string :=
  optional (description st) (fun text =>
    format_indented_paragraph text line_width).

(** The stat block in its fixed order. *)
Definition battle_info_sections : result (list string) :=
  rbind ability_rows (fun rows =>
  rbind (attack_paragraphs melee_text (melee_attacks st)) (fun melee =>
  rbind (attack_paragraphs ranged_text (ranged_attacks st)) (fun ranged =>
    inr ([ac_line; hp_line; speed_line]
         ++ [separator]
         ++ rows
         ++ [separator]
         ++ pairs_section "Saving throws" (saving_throws st)
         ++ pairs_section "Skills" (skills st)
         ++ list_section "Damage vulnerabilities" (damage_vulnerabilities st)
         ++ list_section "Damage resistances" (damage_resistances st)
         ++ list_section "Damage immunities" (damage_immunities st)
         ++ list_section "Condition immunities" (condition_immunities st)
         ++ [passive_perception_line]
         ++ pairs_section "Senses" (special_senses st)
         ++ languages_lines
         ++ [challenge_line]
         ++ [EmptyString; centre_pad "Special traits" line_width; separator]
         ++ named_paragraphs (special_traits st)
         ++ [EmptyString; centre_pad "Actions" line_width; separator]
         ++ melee
         ++ ranged
         ++ multiattack_lines
         ++ named_paragraphs (other_actions st)
         ++ [EmptyString]
         ++ description_lines)%list))).

(** What [battle_info] gives its caller. *)
Definition battle_info_outcome : result (list string) :=
  if line_width <? 56 then inl (ValueError width_message)
  else battle_info_sections.

(** The header of the summary. *)
Definition header_text (quantity : option Z) : string :=
  match quantity with
  | Some q => if truth q then name st ++ " x" ++ Py.str_int q else name st
  | None => name st
  end.

Definition summary_lines (quantity : option Z) : list string :=
  [centre_pad (header_text quantity) line_width;
   Py.str_mul "=" line_width;
   Py.capitalize (size st) ++ " " ++ creature_type st ++ ", " ++ alignment st].

End Sections.

(** ** Conditions on a stat block *)

Section Conditions.

Context {FL : py_float}.

Definition required_melee_keys : list string :=
  ["hit"; "reach"; "targets"; "damage"].

Definition required_ranged_keys : list string :=
  ["hit"; "range"; "targets"; "damage"].

(** Every attack of the table has all of [keys]. *)
Definition has_keys (keys : list string)
  (x : option (Py.dict (Py.dict string))) : bool :=
  match x with
  | Some d =>
      forallb (fun entry => forallb (fun k => Py.contains k (snd entry)) keys) d
  | None => true
  end.

Definition attack_keys_ok (st : StatBlock) : bool :=
  has_keys required_melee_keys (melee_attacks st)
  && has_keys required_ranged_keys (ranged_attacks st).

(** There is an ability, and the two float quotients are exact: the width
    over the number of abilities, and each score less ten over two. *)
Definition abilities_ok (st : StatBlock) (line_width : Z) : bool :=
  negb (Py.dict_len (ability st) =? 0)
  && (Z.abs line_width * Py.dict_len (ability st) <? 2 ^ 53)
  && forallb (fun entry => Z.abs (snd entry - 10) <? 2 ^ 52) (ability st).

(** The score cell as displayed: the score, then the modifier
    [(score - 10) / 2] (rounded down) in parentheses with its sign. *)
Definition displayed_score (score : Z) : string :=
  let modifier := (score - 10) / 2 in
  Py.str_int score ++ "("
    ++ (if 0 <=? modifier then "+" else "-") ++ Py.str_int (Z.abs modifier)
    ++ ")".

Definition with_saving_throws (x : option (Py.dict string)) (st : StatBlock)
  : StatBlock :=
  {| name := name st; size := size st; creature_type := creature_type st;
     alignment := alignment st; ac := ac st; hp := hp st; speed := speed st;
     ability := ability st; challenge := challenge st;
     passive_perception := passive_perception st;
     saving_throws := x;
     skills := skills st;
     damage_vulnerabilities := damage_vulnerabilities st;
     damage_resistances := damage_resistances st;
     damage_immunities := damage_immunities st;
     condition_immunities := condition_immunities st;
     special_senses := special_senses st;
     languages := languages st;
     special_traits := special_traits st;
     melee_attacks := melee_attacks st;
     ranged_attacks := ranged_attacks st;
     multiattack := multiattack st;
     other_actions := other_actions st;
     description := description st |}.

Definition with_skills (x : option (Py.dict string)) (st : StatBlock)
  : StatBlock :=
  {| name := name st; size := size st; creature_type := creature_type st;
     alignment := alignment st; ac := ac st; hp := hp st; speed := speed st;
     ability := ability st; challenge := challenge st;
     passive_perception := passive_perception st;
     saving_throws := saving_throws st;
     skills := x;
     damage_vulnerabilities := damage_vulnerabilities st;
     damage_resistances := damage_resistances st;
     damage_immunities := damage_immunities st;
     condition_immunities := condition_immunities st;
     special_senses := special_senses st;
     languages := languages st;
     special_traits := special_traits st;
     melee_attacks := melee_attacks st;
     ranged_attacks := ranged_attacks st;
     multiattack := multiattack st;
     other_actions := other_actions st;
     description := description st |}.

Definition with_languages (x : option (list string)) (st : StatBlock)
  : StatBlock :=
  {| name := name st; size := size st; creature_type := creature_type st;
     alignment := alignment st; ac := ac st; hp := hp st; speed := speed st;
     ability := ability st; challenge := challenge st;
     passive_perception := passive_perception st;
     saving_throws := saving_throws st;
     skills := skills st;
     damage_vulnerabilities := damage_vulnerabilities st;
     damage_resistances := damage_resistances st;
     damage_immunities := damage_immunities st;
     condition_immunities := condition_immunities st;
     special_senses := special_senses st;
     languages := x;
     special_traits := special_traits st;
     melee_attacks := melee_attacks st;
     ranged_attacks := ranged_attacks st;
     multiattack := multiattack st;
     other_actions := other_actions st;
     description := description st |}.

End Conditions.

(** ** Reasoning about method bodies *)

Section BodyPredicates.

Context {FL : py_float} {TU : text_utils}.
Local Open Scope py_scope.

(** [lines.extend(out)] as a frame update. *)
Definition add_lines (out : list string) (fr : frame) : frame :=
  set_local lines (v_lines fr ++ out)%list fr.

(** A statement that only appends [out] to [lines], whatever the frame. *)
Definition emits (c : M unit) (st : StatBlock) (out : list string) : Prop :=
  forall fr, self fr = st -> c fr = inr (tt, add_lines out fr).

(** The rest of a body that ends in [return lines]: from any frame on [st]
    it raises [e], or returns the lines so far followed by [out]; the
    object is left as it was. *)
Definition yields (c : M (list string)) (st : StatBlock)
  (r : result (list string)) : Prop :=
  forall fr, self fr = st ->
    match r with
    | inl e => exists fr', c fr = inl (e, fr') /\ self fr' = st
    | inr out =>
        exists fr', c fr = inr ((v_lines fr ++ out)%list, fr') /\ self fr' = st
    end.

(** A loop body that raises what [h] raises and otherwise appends the
    lines [h] gives. *)
Definition follows {A : Type} (body : A -> M unit)
  (h : A -> result (list string)) : Prop :=
  forall a fr,
    match h a with
    | inl e => exists fr', body a fr = inl (e, fr') /\ self fr' = self fr
    | inr out => body a fr = inr (tt, add_lines out fr)
    end.

(** The body of the loop over the abilities in [battle_info]. *)
Definition ability_body (width : Z) : string * Z -> M unit :=
  fun '(ability, score) =>
    append ability_name_strings (centre_pad ability width) ;;
    modifier <- eval (calculate_ability_modifier score) ;;
    append ability_score_strings
      (centre_pad
         (Py.str_int score ++ "(" ++ Py.str_int_signed modifier ++ ")")%string
         width).

Definition with_cells (names cells : list string) (fr : frame) : frame :=
  {| self := self fr; v_lines := v_lines fr;
     v_ability_name_strings := (v_ability_name_strings fr ++ names)%list;
     v_ability_score_strings := (v_ability_score_strings fr ++ cells)%list |}.

End BodyPredicates.

(** ** Stat blocks used as examples *)

Module Examples.

Definition six_scores : Py.dict Z :=
  [("STR", 10); ("DEX", 14); ("CON", 12); ("INT", 8); ("WIS", 10); ("CHA", 16)].

Definition scimitar : Py.dict string :=
  [("hit", "+4"); ("reach", "5 ft."); ("targets", "one target");
   ("damage", "5 (1d6 + 2) slashing")].

Definition shortbow : Py.dict string :=
  [("hit", "+4"); ("range", "80/320 ft."); ("targets", "one target");
   ("damage", "5 (1d6 + 2) piercing"); ("info", "Ammunition")].

(** A goblin, with the given abilities, languages and attack tables. *)
Definition goblin_with (abilities : Py.dict Z) (langs : option (list string))
  (melee ranged : option (Py.dict (Py.dict string)))
  : @StatBlock whole_float :=
  {| name := "Goblin"; size := "small"; creature_type := "humanoid";
     alignment := "neutral evil"; ac := "15"; hp := "7 (2d6)";
     speed := "30 ft.";
     ability := abilities;
     challenge := 1 : @float whole_float;
     passive_perception := 9;
     saving_throws := None;
     skills := Some [("Stealth", "+6")];
     damage_vulnerabilities := None;
     damage_resistances := None;
     damage_immunities := None;
     condition_immunities := None;
     special_senses := Some [("darkvision", "60 ft.")];
     languages := langs;
     special_traits :=
       Some [("nimble escape",
              "The goblin can take the Disengage or Hide action as a bonus action.")];
     melee_attacks := melee;
     ranged_attacks := ranged;
     multiattack := None;
     other_actions := None;
     description := Some "A small green menace" |}.

Definition goblin : StatBlock :=
  goblin_with six_scores (Some ["Common"; "Goblin"])
    (Some [("scimitar", scimitar)]) (Some [("shortbow", shortbow)]).

(** A commoner: no saving throws, no skills and no special traits. *)
Definition commoner_with (langs : option (list string))
  (melee ranged : option (Py.dict (Py.dict string)))
  : @StatBlock whole_float :=
  {| name := "Commoner"; size := "medium"; creature_type := "humanoid";
     alignment := "any alignment"; ac := "10"; hp := "4 (1d8)";
     speed := "30 ft.";
     ability :=
       [("STR", 10); ("DEX", 10); ("CON", 10); ("INT", 10); ("WIS", 10);
        ("CHA", 10)];
     challenge := 0 : @float whole_float;
     passive_perception := 10;
     saving_throws := None;
     skills := None;
     damage_vulnerabilities := None;
     damage_resistances := None;
     damage_immunities := None;
     condition_immunities := None;
     special_senses := None;
     languages := langs;
     special_traits := None;
     melee_attacks := melee;
     ranged_attacks := ranged;
     multiattack := None;
     other_actions := None;
     description := None |}.

Definition club : Py.dict string :=
  [("hit", "+2"); ("reach", "5 ft."); ("targets", "one target");
   ("damage", "2 (1d4) bludgeoning")].

Definition commoner : StatBlock :=
  commoner_with None (Some [("club", club)]) None.

Definition commoner_common : StatBlock :=
  commoner_with (Some ["Common"]) (Some [("club", club)]) None.

(** An empty ability mapping. *)
Definition no_abilities : StatBlock :=
  goblin_with [] (Some ["Common"]) (Some [("scimitar", scimitar)]) None.

(** A melee attack without any of its keys. *)
Definition keyless_bite : StatBlock :=
  goblin_with six_scores None (Some [("bite", [])]) None.

(** A ranged attack without its range. *)
Definition keyless_sling : StatBlock :=
  commoner_with None None (Some [("sling", [("hit", "+2")])]).

(** No ability, and a melee attack without its reach. *)
Definition no_abilities_keyless : StatBlock :=
  goblin_with [] None (Some [("bite", [("hit", "+4")])]) None.

(** The lines of a successful render, and no line for an exception. *)
Definition lines_of (r : result (list string)) : list string :=
  match r with
  | inl _ => []
  | inr ls => ls
  end.

Definition goblin_lines : list string :=
  Eval vm_compute in
    lines_of (fst (call (battle_info (TU := TextUtils.model 4) 80) goblin)).

Definition commoner_lines : list string :=
  Eval vm_compute in
    lines_of (fst (call (battle_info (TU := TextUtils.model 4) 80) commoner)).

End Examples.

(** ** Notions used in the statements *)

Section Notions.

Context {FL : py_float} {TU : text_utils}.

(** The text of an attack: returned when the four keys are there, a
    [KeyError] on one of them otherwise. *)
Definition attack_text_spec (keys : list string)
  (text : string * Py.dict string -> result string) : Prop :=
  forall entry,
    (forallb (fun k => Py.contains k (snd entry)) keys = true ->
     exists t, text entry = inr t)
    /\ (forallb (fun k => Py.contains k (snd entry)) keys = false ->
        exists k, In k keys /\ text entry = inl (KeyError k)).

(** A score cell whose modifier is the exact quotient. *)
Definition exact_cell (width : Z) (entry : string * Z) : string :=
  centre_pad (displayed_score (snd entry)) width.

(** An exception of the arithmetic on the abilities. *)
Definition arithmetic_error (e : exc) : Prop :=
  e = ZeroDivisionError \/ e = OverflowError.

End Notions.

(** ** Further notions on stat blocks *)

Section FurtherNotions.

Context {FL : py_float}.

(** The first of [keys] that an attack lacks. *)
Definition first_missing (keys : list string) (details : Py.dict string)
  : option string :=
  find (fun k => negb (Py.contains k details)) keys.

(** The first missing key of the first attack, in table order, that lacks
    one. *)
Fixpoint first_key_error (keys : list string)
  (d : list (string * Py.dict string)) : option string :=
  match d with
  | [] => None
  | entry :: d' =>
      match first_missing keys (snd entry) with
      | Some k => Some k
      | None => first_key_error keys d'
      end
  end.

Definition table_key_error (keys : list string)
  (x : option (Py.dict (Py.dict string))) : option string :=
  match x with
  | Some d => first_key_error keys d
  | None => None
  end.

(** The text of an attack raises on the first key it lacks. *)
Definition raises_first_missing (keys : list string)
  (text : string * Py.dict string -> result string) : Prop :=
  forall entry,
    match first_missing keys (snd entry) with
    | Some k => text entry = inl (KeyError k)
    | None => exists t, text entry = inr t
    end.

(** An optional field as a condition sees it: [None] unless it is true. *)
Definition present {A : Type} `{Truthy A} (x : option A) : option A :=
  match x with
  | Some a => if truth a then Some a else None
  | None => None
  end.

(** The stat block with every empty optional field made absent. *)
Definition normalize (st : StatBlock) : StatBlock :=
  {| name := name st; size := size st; creature_type := creature_type st;
     alignment := alignment st; ac := ac st; hp := hp st; speed := speed st;
     ability := ability st; challenge := challenge st;
     passive_perception := passive_perception st;
     saving_throws := present (saving_throws st);
     skills := present (skills st);
     damage_vulnerabilities := present (damage_vulnerabilities st);
     damage_resistances := present (damage_resistances st);
     damage_immunities := present (damage_immunities st);
     condition_immunities := present (condition_immunities st);
     special_senses := present (special_senses st);
     languages := present (languages st);
     special_traits := present (special_traits st);
     melee_attacks := present (melee_attacks st);
     ranged_attacks := present (ranged_attacks st);
     multiattack := present (multiattack st);
     other_actions := present (other_actions st);
     description := present (description st) |}.

(** The stat block under another name, size, type and alignment. *)
Definition with_identity (name' size' creature_type' alignment' : string)
  (st : StatBlock) : StatBlock :=
  {| name := name'; size := size'; creature_type := creature_type';
     alignment := alignment'; ac := ac st; hp := hp st; speed := speed st;
     ability := ability st; challenge := challenge st;
     passive_perception := passive_perception st;
     saving_throws := saving_throws st;
     skills := skills st;
     damage_vulnerabilities := damage_vulnerabilities st;
     damage_resistances := damage_resistances st;
     damage_immunities := damage_immunities st;
     condition_immunities := condition_immunities st;
     special_senses := special_senses st;
     languages := languages st;
     special_traits := special_traits st;
     melee_attacks := melee_attacks st;
     ranged_attacks := ranged_attacks st;
     multiattack := multiattack st;
     other_actions := other_actions st;
     description := description st |}.

End FurtherNotions.

(** ** The command group of [fourhills.py] *)

Module Cli.

(** What [get_command] gives its caller: a command, [None], or the usage
    error that [ctx.fail] raises. *)
Inductive resolution (C : Type) : Type :=
| Command (c : C)
| NoCommand
| UsageError (message : string).

Arguments Command {C} c.
Arguments NoCommand {C}.
Arguments UsageError {C} message.

Fixpoint insert_sorted (s : string) (l : list string) : list string :=
  match l with
  | [] => [s]
  | x :: l' => if String.leb s x then s :: l else x :: insert_sorted s l'
  end.

(** [sorted(l)] on strings. *)
Definition sorted (l : list string) : list string :=
  fold_right insert_sorted [] l.

(** [click.Group.get_command(self, ctx, cmd_name)]: the command registered
    under the name, or [None]. *)
Definition group_get_command {C : Type} (commands : Py.dict C)
  (cmd_name : string) : option C :=
  match Py.getitem commands cmd_name with
  | inr c => Some c
  | inl _ => None
  end.

(** [self.list_commands(ctx)]: the registered names, sorted. *)
Definition list_commands {C : Type} (commands : Py.dict C) : list string :=
  sorted (map fst commands).

(** [AliasedGroup.get_command] *)
Definition get_command {C : Type} (commands : Py.dict C) (cmd_name : string)
  : resolution C :=
  match group_get_command commands cmd_name with
  | Some rv => Command rv
  | None =>
      let matches :=
        filter (fun x => String.prefix cmd_name x) (list_commands commands) in
      match matches with
      | [] => NoCommand
      | [x] =>
          match group_get_command commands x with
          | Some c => Command c
          | None => NoCommand
          end
      | _ :: _ :: _ =>
          UsageError
            ("Ambiguous command. Too many matches: "
             ++ Py.join ", " (sorted matches))
      end
  end.

(** The commands registered on [cli]. *)
Inductive command : Type :=
| battle
| npcs
| scene
| cheatsheet.

Definition cli : Py.dict command :=
  [("battle", battle); ("npcs", npcs); ("scene", scene);
   ("cheatsheet", cheatsheet)].

End Cli.

(** * Properties *)

(** ** Exactness of [math.floor(a / b)] *)

Section FloatFacts.

Import Float.

Lemma round_half_even_cases n d :
  round_half_even n d = n / d \/
  (round_half_even n d = n / d + 1 /\ d <= 2 * (n mod d)).
Proof.
  unfold round_half_even.
  destruct (Z.ltb_spec (2 * (n mod d)) d); [now left|].
  destruct (Z.ltb_spec d (2 * (n mod d))); [right; split; [reflexivity | lia]|].
  destruct (Z.even (n / d)); [now left | right; split; [reflexivity | lia]].
Qed.

Lemma round_half_even_up n d :
  d < 2 * (n mod d) -> round_half_even n d = n / d + 1.
Proof.
  intros H. unfold round_half_even.
  destruct (Z.ltb_spec (2 * (n mod d)) d); [lia|].
  destruct (Z.ltb_spec d (2 * (n mod d))); [reflexivity | lia].
Qed.

(* scaled quotient: the rounded mantissa stays inside the unit cell of a / b *)
Lemma round_scaled a b N :
  0 <= a -> 0 < b -> 0 < N -> b < 2 * N ->
  let m := round_half_even (a * N) b in
  (a / b) * N <= m < (a / b + 1) * N /\
  (0 < a mod b -> (a / b) * N < m) /\
  (a mod b = 0 -> m = (a / b) * N).
Proof.
  intros Ha Hb HN HbN m.
  pose proof (Z.div_mod a b ltac:(lia)) as Hab.
  pose proof (Z.mod_pos_bound a b Hb) as Hr.
  set (q := a / b) in *. set (r := a mod b) in *.
  assert (HaN : a * N = (q * N) * b + r * N) by (rewrite Hab at 1; ring).
  pose proof (Z.div_mod (r * N) b ltac:(lia)) as Hs.
  pose proof (Z.mod_pos_bound (r * N) b Hb) as Ht.
  set (s := (r * N) / b) in *. set (t := (r * N) mod b) in *.
  assert (Hdiv : (a * N) / b = q * N + s).
  { rewrite HaN. rewrite Z.add_comm, Z.div_add by lia. unfold s. ring. }
  assert (Hmod : (a * N) mod b = t).
  { rewrite HaN. rewrite Z.add_comm, Z.mod_add by lia. reflexivity. }
  assert (Hs0 : 0 <= s) by (apply Z.div_pos; nia).
  assert (HsN : s <= N - 1).
  { assert (s < N); [|lia]. apply Z.div_lt_upper_bound; nia. }
  destruct (round_half_even_cases (a * N) b) as [E | [E Hup]];
    fold m in E; rewrite Hdiv in E; [|rewrite Hmod in Hup].
  - (* rounded down *)
    split; [nia|]. split.
    + intros Hpos. destruct (Z.eq_dec s 0) as [Hz|]; [|nia].
      exfalso.
      assert (Hup : b < 2 * t) by nia.
      pose proof (round_half_even_up (a * N) b) as U. rewrite Hmod in U.
      specialize (U Hup). fold m in U. rewrite Hdiv in U. lia.
    + intros Hz.
      assert (s = 0) by (unfold s; replace r with 0 by lia; now rewrite Z.mul_0_l).
      lia.
  - (* rounded up *)
    assert (s <= N - 2) by nia.
    split; [nia|]. split; [nia|].
    intros Hz. exfalso.
    assert (t = 0) by (unfold t; replace r with 0 by lia; now rewrite Z.mul_0_l).
    lia.
Qed.

Lemma div_cell m N q : 0 < N -> q * N <= m < (q + 1) * N -> m / N = q.
Proof.
  intros HN H. symmetry. apply (Z.div_unique m N q (m - q * N)); lia.
Qed.

Lemma div_neg_floor a b :
  0 <= a -> 0 < b ->
  (- a) / b = if a mod b =? 0 then - (a / b) else - (a / b) - 1.
Proof.
  intros Ha Hb.
  pose proof (Z.div_mod a b ltac:(lia)) as Hab.
  pose proof (Z.mod_pos_bound a b Hb) as Hr.
  destruct (Z.eqb_spec (a mod b) 0) as [Hz|Hz]; symmetry.
  - apply (Z.div_unique (- a) b (- (a / b)) 0); lia.
  - apply (Z.div_unique (- a) b (- (a / b) - 1) (b - a mod b)); lia.
Qed.

Lemma divide_pos_exact a b :
  0 < a -> 0 < b -> a * b < 2 ^ 53 ->
  exists m k, divide_pos a b = Some (mk64 m (- k)) /\ 0 <= k /\
    0 < m /\
    (a / b) * 2 ^ k <= m < (a / b + 1) * 2 ^ k /\
    (0 < a mod b -> (a / b) * 2 ^ k < m) /\
    (a mod b = 0 -> m = (a / b) * 2 ^ k).
Proof.
  intros Ha Hb Hab.
  pose proof (Z.log2_nonneg a) as Hla0. pose proof (Z.log2_nonneg b) as Hlb0.
  pose proof (Z.log2_spec a Ha) as Hla. pose proof (Z.log2_spec b Hb) as Hlb.
  assert (Hsum : Z.log2 a + Z.log2 b <= 52).
  { pose proof (Z.log2_mul_below a b Ha Hb).
    assert (Z.log2 (a * b) < 53) by (apply Z.log2_lt_pow2; nia). lia. }
  set (L := ilog2_ratio a b).
  assert (HL : Z.log2 a - Z.log2 b - 1 <= L <= Z.log2 a - Z.log2 b).
  { unfold L, ilog2_ratio. cbv zeta.
    destruct (scaled_leb b (Z.log2 a - Z.log2 b) a); lia. }
  set (k := 52 - L).
  assert (Hk : 2 * Z.log2 b <= k <= 105) by (unfold k; lia).
  assert (He : Z.max (L - 52) (-1074) = - k) by (unfold k; lia).
  assert (HN : 0 < 2 ^ k) by (apply Z.pow_pos_nonneg; lia).
  assert (HbN : b < 2 * 2 ^ k).
  { assert (2 ^ Z.log2 b <= 2 ^ k) by (apply Z.pow_le_mono_r; lia).
    replace (Z.succ (Z.log2 b)) with (Z.log2 b + 1) in Hlb by lia.
    rewrite Z.pow_add_r in Hlb by lia. lia. }
  pose proof (round_scaled a b (2 ^ k) ltac:(lia) Hb HN HbN) as R.
  cbv zeta in R. destruct R as (Rb & Rpos & Rz).
  set (m := round_half_even (a * 2 ^ k) b) in *.
  pose proof (Z.div_mod a b ltac:(lia)) as Hdm.
  pose proof (Z.mod_pos_bound a b Hb) as Hr.
  assert (Hq0 : 0 <= a / b) by (apply Z.div_pos; lia).
  assert (Hm : 0 < m).
  { destruct (Z.eq_dec (a mod b) 0) as [Hz|Hz].
    - rewrite (Rz Hz). assert (0 < a / b) by nia. nia.
    - specialize (Rpos ltac:(lia)). nia. }
  exists m, k. repeat split; try assumption; try lia.
  unfold divide_pos. fold L. rewrite He. cbv zeta.
  replace (- - k) with k by lia.
  assert (Em : (if 0 <=? - k then round_half_even a (b * 2 ^ (- k))
                else round_half_even (a * 2 ^ k) b) = m).
  { destruct (Z.leb_spec 0 (- k)); [|reflexivity].
    assert (k = 0) by lia. subst m. replace k with 0 in * by lia.
    cbn. now rewrite !Z.mul_1_r. }
  rewrite Em.
  destruct (Z.eqb_spec m 0); [lia|].
  destruct (Z.leb_spec 1024 (Z.log2 m + - k)) as [Hov|]; [|reflexivity].
  exfalso.
  assert (Z.log2 m < 53 + k); [|lia].
  apply Z.log2_lt_pow2; [lia|].
  rewrite Z.pow_add_r by lia.
  assert (a / b + 1 <= 2 ^ 53); [|nia].
  assert (a / b <= a) by (apply Z.div_le_upper_bound; nia). nia.
Qed.

Lemma floor_truediv_exact a b :
  0 < b -> Z.abs a * b < 2 ^ 53 -> floor_truediv a b = inr (a / b).
Proof.
  intros Hb Hab. unfold floor_truediv, truediv.
  destruct (Z.eqb_spec b 0); [lia|].
  destruct (Z.eqb_spec a 0) as [->|Hna]; [reflexivity|].
  rewrite (Z.abs_eq b) by lia.
  destruct (divide_pos_exact (Z.abs a) b ltac:(lia) Hb Hab)
    as (m & k & -> & Hk & Hm & Hcell & Hpos & Hz).
  cbn [rbind mant expo]. f_equal. unfold floor. cbn [mant expo].
  assert (HN : 0 < 2 ^ k) by (apply Z.pow_pos_nonneg; lia).
  replace (Z.sgn b) with 1 by lia.
  assert (Efloor : (if 0 <=? - k then Z.sgn a * 1 * m * 2 ^ (- k)
                    else Z.sgn a * 1 * m / 2 ^ (- - k)) = (Z.sgn a * m) / 2 ^ k).
  { replace (Z.sgn a * 1 * m) with (Z.sgn a * m) by ring.
    replace (- - k) with k by lia.
    destruct (Z.leb_spec 0 (- k)); [|reflexivity].
    replace k with 0 by lia. cbn. now rewrite Z.mul_1_r, Z.div_1_r. }
  rewrite Efloor.
  destruct (Z.lt_trichotomy a 0) as [Hneg | [? | Hp]]; [|lia|].
  - replace (Z.sgn a) with (-1) by lia.
    replace (a / b) with ((- Z.abs a) / b) by (f_equal; lia).
    rewrite (div_neg_floor (Z.abs a) b) by lia.
    pose proof (Z.mod_pos_bound (Z.abs a) b Hb) as Hr.
    destruct (Z.eqb_spec (Z.abs a mod b) 0) as [E|E].
    + rewrite (Hz E). replace (-1 * (Z.abs a / b * 2 ^ k)) with ((- (Z.abs a / b)) * 2 ^ k) by ring.
      apply Z.div_mul. lia.
    + specialize (Hpos ltac:(lia)). apply div_cell; lia.
  - replace (Z.sgn a) with 1 by lia. rewrite (Z.abs_eq a) in * by lia.
    apply div_cell; lia.
Qed.

End FloatFacts.

(** ** The body of a method against its line list *)

Section Refinement.

Context {FL : py_float} {TU : text_utils}.
Local Open Scope py_scope.

Lemma add_lines_nil fr : add_lines [] fr = fr.
Proof. destruct fr. unfold add_lines. cbn. now rewrite app_nil_r. Qed.

Lemma add_lines_app o1 o2 fr :
  add_lines o2 (add_lines o1 fr) = add_lines (o1 ++ o2)%list fr.
Proof. destruct fr. unfold add_lines. cbn. now rewrite app_assoc. Qed.

Lemma self_add_lines out fr : self (add_lines out fr) = self fr.
Proof. reflexivity. Qed.

Lemma emits_extend st l : emits (extend lines l) st l.
Proof. intros fr _. reflexivity. Qed.

Lemma emits_for_each {A : Type} st (g : A -> list string) body l :
  (forall a, emits (body a) st (g a)) ->
  emits (for_each l body) st (flat_map g l).
Proof.
  intros Hbody. induction l as [|a l IH]; intros fr Hfr;
    cbn [for_each flat_map].
  - unfold ret. now rewrite add_lines_nil.
  - unfold bind. rewrite (Hbody a fr Hfr).
    rewrite (IH (add_lines (g a) fr) Hfr). now rewrite add_lines_app.
Qed.

Lemma emits_if_truthy {A : Type} `{Truthy A} st (g : A -> list string)
  body (x : option A) :
  (forall a, emits (body a) st (g a)) ->
  emits (if_truthy x body) st (optional x g).
Proof.
  intros Hbody fr Hfr. unfold if_truthy, optional.
  destruct x as [a|]; [destruct (truth a)|]; try apply Hbody; trivial;
    unfold ret; now rewrite add_lines_nil.
Qed.

Lemma yields_var st : yields (var lines) st (inr []).
Proof. intros fr Hfr. exists fr. cbn. now rewrite app_nil_r. Qed.

Lemma yields_attr {A : Type} st (field : StatBlock -> A) k r :
  yields (k (field st)) st r -> yields (bind (attr field) k) st r.
Proof. intros Hk fr Hfr. unfold bind, attr. rewrite Hfr. now apply Hk. Qed.

Lemma yields_emits st c out k r :
  emits c st out -> yields k st r -> yields (c ;; k) st (tell out r).
Proof.
  intros Hc Hk fr Hfr. unfold bind. rewrite (Hc fr Hfr).
  specialize (Hk (add_lines out fr) Hfr).
  destruct r as [e|rest]; cbn in *; [exact Hk|].
  destruct Hk as (fr' & E & Hs). exists fr'. split; [|exact Hs].
  rewrite E. now rewrite app_assoc.
Qed.

Lemma yields_append st s k r :
  yields k st r -> yields (append lines s ;; k) st (tell [s] r).
Proof. apply yields_emits. intros fr _. reflexivity. Qed.

Lemma yields_eval {A : Type} st (r0 : result A) k (r : A -> result (list string)) :
  (forall a, r0 = inr a -> yields (k a) st (r a)) ->
  yields (bind (eval r0) k) st (rbind r0 r).
Proof.
  intros Hk fr Hfr. unfold bind, eval. destruct r0 as [e|a]; cbn.
  - now exists fr.
  - now apply Hk.
Qed.

Lemma for_each_follows {A : Type} (body : A -> M unit) h l :
  follows body h ->
  forall fr,
    match collect h l with
    | inl e => exists fr', for_each l body fr = inl (e, fr') /\ self fr' = self fr
    | inr out => for_each l body fr = inr (tt, add_lines out fr)
    end.
Proof.
  intros Hbody. induction l as [|a l IH]; intros fr; cbn [for_each collect].
  - unfold ret. now rewrite add_lines_nil.
  - unfold bind. specialize (Hbody a fr).
    destruct (h a) as [e|out]; cbn [rbind tell].
    + destruct Hbody as (fr' & -> & Hs). now exists fr'.
    + rewrite Hbody. specialize (IH (add_lines out fr)).
      destruct (collect h l) as [e|rest]; cbn [rbind tell].
      * destruct IH as (fr' & -> & Hs). now exists fr'.
      * rewrite IH. now rewrite add_lines_app.
Qed.

Lemma yields_attacks st (x : option (Py.dict (Py.dict string))) body text w k r :
  follows body (fun entry =>
    rbind (text entry) (fun t => inr (format_indented_paragraph t w))) ->
  yields k st r ->
  yields (if_truthy x (fun d => for_each (Py.items d) body) ;; k) st
    (rbind (attack_paragraphs w text x) (fun out => tell out r)).
Proof.
  intros Hbody Hk fr Hfr. unfold bind, if_truthy, attack_paragraphs.
  assert (Hskip : match tell [] r with
    | inl e => exists fr', k fr = inl (e, fr') /\ self fr' = st
    | inr out => exists fr', k fr = inr ((v_lines fr ++ out)%list, fr') /\ self fr' = st
    end).
  { specialize (Hk fr Hfr). destruct r; exact Hk. }
  destruct x as [d|]; [destruct (truth d)|]; cbn [rbind]; try exact Hskip.
  pose proof (for_each_follows body _ (Py.items d) Hbody fr) as Hloop.
  destruct (collect _ (Py.items d)) as [e|out]; cbn [rbind].
  - destruct Hloop as (fr' & -> & Hs). exists fr'. split; congruence.
  - rewrite Hloop. specialize (Hk (add_lines out fr) Hfr).
    destruct r as [e|rest]; cbn in *; [exact Hk|].
    destruct Hk as (fr' & E & Hs). exists fr'. split; [|exact Hs].
    rewrite E. now rewrite app_assoc.
Qed.


Lemma bind_eq {A B : Type} (c : M A) (k : A -> M B) fr :
  bind c k fr = match c fr with
                | inl err => inl err
                | inr (a, fr') => k a fr'
                end.
Proof. reflexivity. Qed.

Lemma ability_body_step width entry fr :
  ability_body width entry fr =
  match score_cell width entry with
  | inl e => inl (e, with_cells [name_cell width entry] [] fr)
  | inr cell => inr (tt, with_cells [name_cell width entry] [cell] fr)
  end.
Proof.
  destruct entry as [ability score]. unfold ability_body, score_cell.
  cbn [fst snd]. unfold bind, eval, append.
  destruct (calculate_ability_modifier score); cbn [rbind];
    destruct fr; unfold with_cells, name_cell, score_text; cbn;
    now rewrite ?app_nil_r.
Qed.

(** The loop over the abilities fills the two cell lists. *)
Lemma ability_loop (width : Z) l :
  forall fr,
    match score_cells width l with
    | inl e =>
        exists fr',
          for_each l (ability_body width) fr = inl (e, fr')
          /\ self fr' = self fr
    | inr cells =>
        for_each l (ability_body width) fr
        = inr (tt, with_cells (map (name_cell width) l) cells fr)
    end.
Proof.
  induction l as [|entry l IH]; intros fr; cbn [score_cells for_each map].
  - unfold ret, with_cells. destruct fr; cbn. now rewrite !app_nil_r.
  - rewrite bind_eq, ability_body_step.
    destruct (score_cell width entry) as [e|cell]; cbn [rbind].
    + eexists. split; reflexivity.
    + specialize (IH (with_cells [name_cell width entry] [cell] fr)).
      destruct (score_cells width l) as [e|cells]; cbn [rbind].
      * destruct IH as (fr' & -> & Hs). exists fr'. split; [reflexivity|exact Hs].
      * rewrite IH. unfold with_cells. cbn. now rewrite <- !app_assoc.
Qed.

Lemma yields_ability_rows st w width k r :
  yields k st r ->
  yields
    (new_list ability_name_strings ;;
     new_list ability_score_strings ;;
     for_each (Py.items (ability st)) (ability_body width) ;;
     names <- var ability_name_strings ;;
     append lines (centre_pad (Py.join EmptyString names) w) ;;
     scores <- var ability_score_strings ;;
     append lines (centre_pad (Py.join EmptyString scores) w) ;;
     k) st
    (rbind (score_cells width (ability st)) (fun cells =>
       tell [ability_name_row st w width; ability_score_row w cells] r)).
Proof.
  intros Hk fr Hfr. cbv [bind new_list].
  match goal with |- context [for_each _ _ ?f] =>
    pose proof (ability_loop width (Py.items (ability st)) f) as Hloop end.
  unfold Py.items in *.
  destruct (score_cells width (ability st)) as [e|cells]; cbn [rbind].
  - destruct Hloop as (fr' & -> & Hs). exists fr'. split; [reflexivity|].
    now rewrite Hs.
  - rewrite Hloop. cbv [var append]. cbv beta iota.
    unfold yields in Hk.
    match goal with |- context [k ?f] => specialize (Hk f Hfr) end.
    destruct fr as [st' ls ns ss]. cbn in Hfr. subst st'.
    cbn [with_cells set_local get_local self v_lines v_ability_name_strings
         v_ability_score_strings app] in *.
    unfold ability_name_row, ability_score_row.
    destruct r as [e|rest]; cbn [tell rbind].
    + exact Hk.
    + destruct Hk as (fr' & E & Hs). exists fr'. split; [|exact Hs].
      rewrite E. now rewrite <- !app_assoc.
Qed.


Lemma follows_melee w :
  follows
    (fun '(name, details) =>
      hit <- eval (Py.getitem details "hit") ;;
      reach <- eval (Py.getitem details "reach") ;;
      targets <- eval (Py.getitem details "targets") ;;
      damage <- eval (Py.getitem details "damage") ;;
      let details_formatted :=
        (Py.capitalize name ++ ": melee weapon attack, "
         ++ hit ++ " to hit, reach " ++ reach ++ ", "
         ++ targets ++ ". "
         ++ "Hit damage: " ++ damage ++ ".")%string in
      details_formatted <-
        (if Py.contains "info" details
         then (info <- eval (Py.getitem details "info") ;;
               ret (details_formatted ++ " " ++ info ++ ".")%string)
         else ret details_formatted) ;;
      extend lines (format_indented_paragraph details_formatted w))
    (fun entry =>
      rbind (melee_text entry) (fun t => inr (format_indented_paragraph t w))).
Proof.
  intros [name details] fr. unfold melee_text, with_info. cbn [fst snd].
  cbv [bind eval ret extend].
  destruct (Py.getitem details "hit"); cbn [rbind]; [now eexists|].
  destruct (Py.getitem details "reach"); cbn [rbind]; [now eexists|].
  destruct (Py.getitem details "targets"); cbn [rbind]; [now eexists|].
  destruct (Py.getitem details "damage"); cbn [rbind]; [now eexists|].
  destruct (Py.contains "info" details); cbn [rbind]; [|reflexivity].
  destruct (Py.getitem details "info"); cbn [rbind]; [now eexists|reflexivity].
Qed.

Lemma follows_ranged w :
  follows
    (fun '(name, details) =>
      hit <- eval (Py.getitem details "hit") ;;
      range <- eval (Py.getitem details "range") ;;
      targets <- eval (Py.getitem details "targets") ;;
      damage <- eval (Py.getitem details "damage") ;;
      let details_formatted :=
        (Py.capitalize name ++ ": ranged weapon attack, "
         ++ hit ++ " to hit, range " ++ range ++ ","
         ++ targets ++ ". "
         ++ "Hit damage: " ++ damage ++ ".")%string in
      details_formatted <-
        (if Py.contains "info" details
         then (info <- eval (Py.getitem details "info") ;;
               ret (details_formatted ++ " " ++ info ++ ".")%string)
         else ret details_formatted) ;;
      extend lines (format_indented_paragraph details_formatted w))
    (fun entry =>
      rbind (ranged_text entry) (fun t => inr (format_indented_paragraph t w))).
Proof.
  intros [name details] fr. unfold ranged_text, with_info. cbn [fst snd].
  cbv [bind eval ret extend].
  destruct (Py.getitem details "hit"); cbn [rbind]; [now eexists|].
  destruct (Py.getitem details "range"); cbn [rbind]; [now eexists|].
  destruct (Py.getitem details "targets"); cbn [rbind]; [now eexists|].
  destruct (Py.getitem details "damage"); cbn [rbind]; [now eexists|].
  destruct (Py.contains "info" details); cbn [rbind]; [|reflexivity].
  destruct (Py.getitem details "info"); cbn [rbind]; [now eexists|reflexivity].
Qed.

Lemma emits_named_paragraphs st w (x : option (Py.dict string)) :
  emits
    (if_truthy x (fun d =>
       for_each (Py.items d) (fun '(name, text) =>
         extend lines
           (format_indented_paragraph
              (Py.capitalize name ++ ": " ++ text)%string w))))
    st (named_paragraphs w x).
Proof.
  apply emits_if_truthy. intros d.
  apply (emits_for_each st (named_paragraph w)).
  intros [name text]. apply emits_extend.
Qed.

Lemma yields_start st k r r' :
  yields k st r -> r = r' ->
  exists fr',
    (new_list lines ;; k) (enter st)
    = match r' with
      | inl e => inl (e, fr')
      | inr out => inr (out, fr')
      end
    /\ self fr' = st.
Proof.
  intros Hk <-. specialize (Hk (enter st) eq_refl).
  rewrite bind_eq. change (new_list lines (enter st)) with (@inr (exc * frame) _ (tt, enter st)).
  cbv beta iota. destruct r; exact Hk.
Qed.

Ltac yield_step :=
  cbv beta;
  lazymatch goal with
  | |- yields (bind (attr _) _) _ _ => apply yields_attr
  | |- yields (bind (append lines _) _) _ _ => eapply yields_append
  | |- yields (bind (extend lines _) _) _ _ =>
      eapply yields_emits; [apply emits_extend|]
  | |- yields (bind (if_truthy _ (fun _ => for_each _ _)) _) _ _ =>
      first [ eapply yields_emits; [apply emits_named_paragraphs|]
            | eapply yields_attacks; [apply follows_melee|]
            | eapply yields_attacks; [apply follows_ranged|] ]
  | |- yields (bind (if_truthy _ _) _) _ _ =>
      eapply yields_emits;
      [eapply emits_if_truthy; intros ?; cbv beta zeta; apply emits_extend|]
  | |- yields (var lines) _ _ => apply yields_var
  end.

(** The body of [battle_info], run from the entry frame. *)
Lemma battle_info_run st w :
  exists fr',
    battle_info w (enter st)
    = match battle_info_outcome st w with
      | inl e => inl (e, fr')
      | inr out => inr (out, fr')
      end
    /\ self fr' = st.
Proof.
  unfold battle_info, battle_info_outcome.
  destruct (w <? 56); [exists (enter st); now split|].
  eapply yields_start.
  - do 8 yield_step.
    cbv beta. eapply yields_eval. intros width _.
    cbv beta. eapply yields_ability_rows.
    repeat yield_step.
  - unfold battle_info_sections, ability_rows, ability_width.
    destruct (Float.floor_truediv w (Py.dict_len (ability st))) as [e|width];
      [reflexivity|]; cbn [rbind tell].
    destruct (score_cells width (ability st)) as [e|cells];
      [reflexivity|]; cbn [rbind tell].
    destruct (attack_paragraphs w melee_text (melee_attacks st)) as [e|melee];
      [reflexivity|]; cbn [rbind tell].
    destruct (attack_paragraphs w ranged_text (ranged_attacks st)) as [e|ranged];
      [reflexivity|]; cbn [rbind tell].
    f_equal. rewrite ?app_nil_r. rewrite <- ?app_assoc. reflexivity.
Qed.

End Refinement.

(** ** What a call returns *)

Section CallFacts.

Context {FL : py_float} {TU : text_utils}.

Lemma battle_info_call st w :
  call (battle_info w) st = (battle_info_outcome st w, st).
Proof.
  unfold call. destruct (battle_info_run st w) as (fr' & -> & Hs).
  destruct (battle_info_outcome st w); cbn; now rewrite Hs.
Qed.

Lemma summary_info_run st w q :
  summary_info w q (enter st)
  = inr (summary_lines st w q, add_lines (summary_lines st w q) (enter st)).
Proof.
  unfold summary_info, summary_lines, header_text.
  destruct q as [q|]; [destruct (truth q)|]; reflexivity.
Qed.

Lemma summary_info_call st w q :
  call (summary_info w q) st = (inr (summary_lines st w q), st).
Proof. unfold call. now rewrite summary_info_run. Qed.

End CallFacts.

(** ** Key lookups of the attack tables *)

Section AttackFacts.

Context {TU : text_utils}.

Lemma getitem_present {V : Type} (d : Py.dict V) key :
  Py.contains key d = true -> exists v, Py.getitem d key = inr v.
Proof.
  induction d as [|[k v] d IH]; cbn; [discriminate|].
  destruct (String.eqb k key); [now exists v | exact IH].
Qed.

Lemma getitem_absent {V : Type} (d : Py.dict V) key :
  Py.contains key d = false -> Py.getitem d key = inl (KeyError key).
Proof.
  induction d as [|[k v] d IH]; cbn; [reflexivity|].
  destruct (String.eqb k key); [discriminate | exact IH].
Qed.

Lemma with_info_returns details text :
  exists t, with_info details text = inr t.
Proof.
  unfold with_info. destruct (Py.contains "info" details) eqn:E.
  - destruct (getitem_present _ _ E) as (v & ->). cbn. now eexists.
  - now eexists.
Qed.

Lemma melee_text_spec : attack_text_spec required_melee_keys melee_text.
Proof.
  intros [name details]. unfold melee_text, required_melee_keys.
  cbn [forallb fst snd In]. rewrite andb_true_r.
  destruct (Py.contains "hit" details) eqn:E1;
    [destruct (getitem_present _ _ E1) as (v1 & ->)
    | rewrite (getitem_absent _ _ E1)]; cbn [rbind andb];
    [|split; [discriminate | intros _; exists "hit"; auto]].
  destruct (Py.contains "reach" details) eqn:E2;
    [destruct (getitem_present _ _ E2) as (v2 & ->)
    | rewrite (getitem_absent _ _ E2)]; cbn [rbind andb];
    [|split; [discriminate | intros _; exists "reach"; auto]].
  destruct (Py.contains "targets" details) eqn:E3;
    [destruct (getitem_present _ _ E3) as (v3 & ->)
    | rewrite (getitem_absent _ _ E3)]; cbn [rbind andb];
    [|split; [discriminate | intros _; exists "targets"; auto]].
  destruct (Py.contains "damage" details) eqn:E4;
    [destruct (getitem_present _ _ E4) as (v4 & ->)
    | rewrite (getitem_absent _ _ E4)]; cbn [rbind andb];
    [|split; [discriminate | intros _; exists "damage"; auto 6]].
  split; [intros _; apply with_info_returns | discriminate].
Qed.

Lemma ranged_text_spec : attack_text_spec required_ranged_keys ranged_text.
Proof.
  intros [name details]. unfold ranged_text, required_ranged_keys.
  cbn [forallb fst snd In]. rewrite andb_true_r.
  destruct (Py.contains "hit" details) eqn:E1;
    [destruct (getitem_present _ _ E1) as (v1 & ->)
    | rewrite (getitem_absent _ _ E1)]; cbn [rbind andb];
    [|split; [discriminate | intros _; exists "hit"; auto]].
  destruct (Py.contains "range" details) eqn:E2;
    [destruct (getitem_present _ _ E2) as (v2 & ->)
    | rewrite (getitem_absent _ _ E2)]; cbn [rbind andb];
    [|split; [discriminate | intros _; exists "range"; auto]].
  destruct (Py.contains "targets" details) eqn:E3;
    [destruct (getitem_present _ _ E3) as (v3 & ->)
    | rewrite (getitem_absent _ _ E3)]; cbn [rbind andb];
    [|split; [discriminate | intros _; exists "targets"; auto]].
  destruct (Py.contains "damage" details) eqn:E4;
    [destruct (getitem_present _ _ E4) as (v4 & ->)
    | rewrite (getitem_absent _ _ E4)]; cbn [rbind andb];
    [|split; [discriminate | intros _; exists "damage"; auto 6]].
  split; [intros _; apply with_info_returns | discriminate].
Qed.

Lemma collect_attacks keys text w (d : Py.dict (Py.dict string)) :
  attack_text_spec keys text ->
  let paragraph entry :=
    rbind (text entry) (fun t => inr (format_indented_paragraph t w)) in
  (forallb (fun entry => forallb (fun k => Py.contains k (snd entry)) keys) d
     = true -> exists out, collect paragraph d = inr out)
  /\ (forallb (fun entry => forallb (fun k => Py.contains k (snd entry)) keys) d
        = false ->
      exists k, In k keys /\ collect paragraph d = inl (KeyError k)).
Proof.
  intros Hspec paragraph. induction d as [|entry d [IHt IHf]]; cbn [forallb collect].
  - split; [now eexists | discriminate].
  - destruct (Hspec entry) as [Ht Hf]. unfold paragraph at 1 3.
    destruct (forallb _ keys) eqn:E; cbn [andb].
    + destruct (Ht eq_refl) as (t & ->). cbn [rbind]. split.
      * intros H. destruct (IHt H) as (out & ->). cbn. now eexists.
      * intros H. destruct (IHf H) as (k & Hk & ->). cbn. now exists k.
    + destruct (Hf eq_refl) as (k & Hk & ->). cbn [rbind].
      split; [discriminate | intros _; now exists k].
Qed.

Lemma attack_paragraphs_keys keys text w x :
  attack_text_spec keys text ->
  (has_keys keys x = true -> exists out, attack_paragraphs w text x = inr out)
  /\ (has_keys keys x = false ->
      exists k, In k keys /\ attack_paragraphs w text x = inl (KeyError k)).
Proof.
  intros Hspec. unfold has_keys, attack_paragraphs.
  destruct x as [d|]; [|split; [now eexists | discriminate]].
  destruct (collect_attacks keys text w d Hspec) as [Ht Hf].
  destruct d as [|entry d]; [split; [now eexists | discriminate]|].
  cbn [truth Truthy_dict]. unfold Py.items. split; assumption.
Qed.

End AttackFacts.

(** ** The ability rows *)

Section AbilityFacts.

Context {FL : py_float} {TU : text_utils}.

Lemma str_int_signed_abs m :
  Py.str_int_signed m
  = ((if (0 <=? m)%Z then "+" else "-") ++ Py.str_int (Z.abs m))%string.
Proof. destruct m; reflexivity. Qed.

Lemma score_text_displayed score :
  score_text score ((score - 10) / 2) = displayed_score score.
Proof.
  unfold score_text, displayed_score. cbv zeta.
  rewrite str_int_signed_abs. destruct (0 <=? (score - 10) / 2); reflexivity.
Qed.

Lemma calculate_ability_modifier_exact score :
  Z.abs (score - 10) < 2 ^ 52 ->
  calculate_ability_modifier score = inr ((score - 10) / 2).
Proof.
  intros H. unfold calculate_ability_modifier.
  apply floor_truediv_exact; [lia|].
  change (2 ^ 53) with (2 ^ 52 * 2). lia.
Qed.

Lemma score_cells_exact width l :
  forallb (fun entry => Z.abs (snd entry - 10) <? 2 ^ 52) l = true ->
  score_cells width l = inr (map (exact_cell width) l).
Proof.
  induction l as [|entry l IH]; cbn [forallb score_cells map]; [reflexivity|].
  intros H. apply andb_prop in H. destruct H as [H1 H2].
  apply Z.ltb_lt in H1. unfold score_cell.
  rewrite (calculate_ability_modifier_exact _ H1). cbn [rbind].
  rewrite (IH H2). cbn [rbind]. unfold exact_cell.
  now rewrite score_text_displayed.
Qed.

Lemma abilities_ok_width st w :
  abilities_ok st w = true ->
  ability_width st w = inr (w / Py.dict_len (ability st)).
Proof.
  unfold abilities_ok, ability_width. intros H.
  apply andb_prop in H. destruct H as [H _].
  apply andb_prop in H. destruct H as [Hn Hw].
  apply negb_true_iff, Z.eqb_neq in Hn. apply Z.ltb_lt in Hw.
  apply floor_truediv_exact; [|exact Hw].
  unfold Py.dict_len in *. lia.
Qed.

Lemma abilities_ok_rows st w :
  abilities_ok st w = true ->
  ability_rows st w
  = inr [ability_name_row st w (w / Py.dict_len (ability st));
         ability_score_row w
           (map (exact_cell (w / Py.dict_len (ability st))) (ability st))].
Proof.
  intros H. unfold ability_rows. rewrite (abilities_ok_width st w H).
  cbn [rbind]. unfold abilities_ok in H.
  apply andb_prop in H. destruct H as [_ H].
  now rewrite (score_cells_exact _ _ H).
Qed.

Lemma no_ability_rows st w :
  ability st = [] -> ability_rows st w = inl ZeroDivisionError.
Proof. intros H. unfold ability_rows, ability_width. now rewrite H. Qed.

End AbilityFacts.

(** ** Lengths of strings *)

Section LengthFacts.

Lemma len_append s t : Py.len (s ++ t)%string = Py.len s + Py.len t.
Proof.
  unfold Py.len. induction s as [|c s IH]; cbn [String.append String.length].
  - lia.
  - rewrite !Nat2Z.inj_succ. lia.
Qed.

Lemma len_nonneg s : 0 <= Py.len s.
Proof. unfold Py.len. lia. Qed.

Lemma len_repeat_str s n :
  Py.len (Py.repeat_str s n) = Z.of_nat n * Py.len s.
Proof.
  induction n as [|n IH]; cbn [Py.repeat_str].
  - reflexivity.
  - rewrite len_append, IH, Nat2Z.inj_succ. lia.
Qed.

(** A rule of [width] characters. *)
Lemma len_str_mul_char c w :
  0 <= w -> Py.len (Py.str_mul (String c EmptyString) w) = w.
Proof.
  intros H. unfold Py.str_mul. rewrite len_repeat_str.
  change (Py.len (String c EmptyString)) with 1. lia.
Qed.

Lemma len_centre_pad text w :
  Py.len text <= w -> Py.len (TextUtils.centre_pad text w) = w.
Proof.
  intros H. unfold TextUtils.centre_pad. cbv zeta.
  destruct (Z.leb_spec (w - Py.len text) 0); [lia|].
  assert (0 <= (w - Py.len text) / 2) by (apply Z.div_pos; lia).
  assert ((w - Py.len text) / 2 <= w - Py.len text)
    by (apply Z.div_le_upper_bound; lia).
  unfold TextUtils.spaces. rewrite !len_append, !len_str_mul_char by lia. lia.
Qed.

Lemma len_centre_pad_overflow text w :
  w <= Py.len text -> TextUtils.centre_pad text w = text.
Proof.
  intros H. unfold TextUtils.centre_pad. cbv zeta.
  destruct (Z.leb_spec (w - Py.len text) 0); [reflexivity | lia].
Qed.

(** A list with one item that fits on the line is one line. *)
Lemma format_list_languages_none indent w :
  15 <= w ->
  TextUtils.format_list indent "Languages" ["none"%string] w
  = ["Languages: none"%string].
Proof.
  intros H. unfold TextUtils.format_list, TextUtils.format_indented_paragraph.
  change (TextUtils.split ("Languages" ++ ": " ++ Py.join ", " ["none"]))%string
    with ["Languages:"%string; "none"%string].
  cbn [TextUtils.fill].
  change (Py.len "Languages:" + 1 + Py.len "none") with 15.
  destruct (Z.leb_spec 15 w); [reflexivity | lia].
Qed.

Lemma format_list_languages_common indent w :
  17 <= w ->
  TextUtils.format_list indent "Languages" ["Common"%string] w
  = ["Languages: Common"%string].
Proof.
  intros H. unfold TextUtils.format_list, TextUtils.format_indented_paragraph.
  change (TextUtils.split ("Languages" ++ ": " ++ Py.join ", " ["Common"]))%string
    with ["Languages:"%string; "Common"%string].
  cbn [TextUtils.fill].
  change (Py.len "Languages:" + 1 + Py.len "Common") with 17.
  destruct (Z.leb_spec 17 w); [reflexivity | lia].
Qed.

End LengthFacts.

(** ** Which exceptions a render can raise *)

Section OutcomeFacts.

Context {FL : py_float} {TU : text_utils}.

Lemma floor_truediv_error a b e :
  Float.floor_truediv a b = inl e -> arithmetic_error e.
Proof.
  unfold Float.floor_truediv, Float.truediv, arithmetic_error.
  destruct (b =? 0); [intros [= <-]; now left|].
  destruct (a =? 0); [discriminate|].
  destruct (Float.divide_pos (Z.abs a) (Z.abs b)); [discriminate|].
  intros [= <-]. now right.
Qed.

Lemma score_cells_error width l e :
  score_cells width l = inl e -> arithmetic_error e.
Proof.
  induction l as [|entry l IH]; cbn [score_cells]; [discriminate|].
  unfold score_cell, calculate_ability_modifier.
  destruct (Float.floor_truediv (snd entry - 10) 2) as [e'|m] eqn:E; cbn [rbind].
  - intros [= <-]. exact (floor_truediv_error _ _ _ E).
  - destruct (score_cells width l) as [e'|cells]; cbn [rbind]; [|discriminate].
    intros [= <-]. now apply IH.
Qed.

Lemma ability_rows_error st w e :
  ability_rows st w = inl e -> arithmetic_error e.
Proof.
  unfold ability_rows, ability_width.
  destruct (Float.floor_truediv w (Py.dict_len (ability st))) as [e'|width] eqn:E;
    cbn [rbind].
  - intros [= <-]. exact (floor_truediv_error _ _ _ E).
  - destruct (score_cells width (ability st)) as [e'|cells] eqn:E'; cbn [rbind];
      [|discriminate].
    intros [= <-]. exact (score_cells_error _ _ _ E').
Qed.

Lemma ability_rows_shape st w rows :
  ability_rows st w = inr rows ->
  exists width cells,
    ability_width st w = inr width
    /\ score_cells width (ability st) = inr cells
    /\ rows = [ability_name_row st w width; ability_score_row w cells].
Proof.
  unfold ability_rows.
  destruct (ability_width st w) as [e|width]; cbn [rbind]; [discriminate|].
  destruct (score_cells width (ability st)) as [e|cells] eqn:E; cbn [rbind];
    [discriminate|].
  intros [= <-]. now exists width, cells.
Qed.

(** The three parts of a render that can raise, when none does. *)
Lemma sections_returned st w ls :
  battle_info_sections st w = inr ls ->
  exists rows melee ranged,
    ability_rows st w = inr rows
    /\ attack_paragraphs w melee_text (melee_attacks st) = inr melee
    /\ attack_paragraphs w ranged_text (ranged_attacks st) = inr ranged.
Proof.
  unfold battle_info_sections.
  destruct (ability_rows st w) as [e|rows]; cbn [rbind]; [discriminate|].
  destruct (attack_paragraphs w melee_text _) as [e|melee] eqn:Em; cbn [rbind];
    [discriminate|].
  destruct (attack_paragraphs w ranged_text _) as [e|ranged] eqn:Er; cbn [rbind];
    [discriminate|].
  intros _. now exists rows, melee, ranged.
Qed.

Lemma sections_keys st w ls :
  battle_info_sections st w = inr ls -> attack_keys_ok st = true.
Proof.
  intros H. destruct (sections_returned st w ls H) as (rows & melee & ranged & _ & Hm & Hr).
  unfold attack_keys_ok. apply andb_true_intro. split.
  - destruct (has_keys required_melee_keys (melee_attacks st)) eqn:E; [reflexivity|].
    destruct (proj2 (attack_paragraphs_keys _ _ w _ melee_text_spec) E)
      as (k & _ & Hk). congruence.
  - destruct (has_keys required_ranged_keys (ranged_attacks st)) eqn:E; [reflexivity|].
    destruct (proj2 (attack_paragraphs_keys _ _ w _ ranged_text_spec) E)
      as (k & _ & Hk). congruence.
Qed.

Lemma sections_complete st w rows :
  ability_rows st w = inr rows -> attack_keys_ok st = true ->
  exists ls, battle_info_sections st w = inr ls.
Proof.
  intros Hrows Hkeys. unfold attack_keys_ok in Hkeys.
  apply andb_prop in Hkeys. destruct Hkeys as [Hm Hr].
  destruct (proj1 (attack_paragraphs_keys _ _ w _ melee_text_spec) Hm) as (melee & Em).
  destruct (proj1 (attack_paragraphs_keys _ _ w _ ranged_text_spec) Hr) as (ranged & Er).
  unfold battle_info_sections. rewrite Hrows, Em, Er. cbn [rbind]. now eexists.
Qed.

Lemma sections_key_error st w rows :
  ability_rows st w = inr rows -> attack_keys_ok st = false ->
  exists k, In k (required_melee_keys ++ required_ranged_keys)%list
            /\ battle_info_sections st w = inl (KeyError k).
Proof.
  intros Hrows Hkeys. unfold attack_keys_ok in Hkeys.
  unfold battle_info_sections. rewrite Hrows. cbn [rbind].
  destruct (has_keys required_melee_keys (melee_attacks st)) eqn:Em.
  - cbn [andb] in Hkeys.
    destruct (proj1 (attack_paragraphs_keys _ _ w _ melee_text_spec) Em) as (melee & ->).
    destruct (proj2 (attack_paragraphs_keys _ _ w _ ranged_text_spec) Hkeys)
      as (k & Hk & ->).
    exists k. split; [apply in_or_app; now right | reflexivity].
  - destruct (proj2 (attack_paragraphs_keys _ _ w _ melee_text_spec) Em)
      as (k & Hk & ->).
    exists k. split; [apply in_or_app; now left | reflexivity].
Qed.

Lemma sections_error st w e :
  battle_info_sections st w = inl e ->
  arithmetic_error e \/ exists k, e = KeyError k.
Proof.
  unfold battle_info_sections.
  destruct (ability_rows st w) as [e'|rows] eqn:E; cbn [rbind].
  - intros [= <-]. left. exact (ability_rows_error _ _ _ E).
  - destruct (attack_keys_ok st) eqn:K.
    + destruct (sections_complete st w rows E K) as (ls & Hls).
      unfold battle_info_sections in Hls. rewrite E in Hls. cbn [rbind] in Hls.
      rewrite Hls. discriminate.
    + destruct (sections_key_error st w rows E K) as (k & _ & Hk).
      unfold battle_info_sections in Hk. rewrite E in Hk. cbn [rbind] in Hk.
      rewrite Hk. intros [= <-]. right. now exists k.
Qed.

End OutcomeFacts.

(** * The claims *)







(** C3: whenever [battle_info] returns, its lines are, in this order: the AC
    line, the HP line, the Speed line, a separator, the ability-name row, the
    ability-score row, a separator, then (each only if present) saving
    throws, skills, damage vulnerabilities, damage resistances, damage
    immunities, condition immunities, then passive perception, special
    senses (if present), languages, the challenge rating, a blank line, the
    centred [Special traits] header and its rule, the trait paragraphs, a
    blank line, the centred [Actions] header and its rule, the melee attacks,
    the ranged attacks, the multiattack, the other actions, a blank line and
    the description (if present). *)
Theorem C3_sections_in_fixed_order {FL : py_float} {TU : text_utils}
  (st : StatBlock) (w : Z) (ls : list string) :
  fst (call (battle_info w) st) = inr ls ->
  exists width cells melee ranged,
    ability_width st w = inr width
    /\ score_cells width (ability st) = inr cells
    /\ attack_paragraphs w melee_text (melee_attacks st) = inr melee
    /\ attack_paragraphs w ranged_text (ranged_attacks st) = inr ranged
    /\ ls = ([ac_line st] ++ [hp_line st] ++ [speed_line st]
             ++ [separator w]
             ++ [ability_name_row st w width]
             ++ [ability_score_row w cells]
             ++ [separator w]
             ++ pairs_section w "Saving throws" (saving_throws st)
             ++ pairs_section w "Skills" (skills st)
             ++ list_section w "Damage vulnerabilities" (damage_vulnerabilities st)
             ++ list_section w "Damage resistances" (damage_resistances st)
             ++ list_section w "Damage immunities" (damage_immunities st)
             ++ list_section w "Condition immunities" (condition_immunities st)
             ++ [passive_perception_line st]
             ++ pairs_section w "Senses" (special_senses st)
             ++ languages_lines st w
             ++ [challenge_line st]
             ++ [EmptyString]
             ++ [centre_pad "Special traits" w] ++ [separator w]
             ++ named_paragraphs w (special_traits st)
             ++ [EmptyString]
             ++ [centre_pad "Actions" w] ++ [separator w]
             ++ melee
             ++ ranged
             ++ multiattack_lines st w
             ++ named_paragraphs w (other_actions st)
             ++ [EmptyString]
             ++ description_lines st w)%list.
Proof.
  intros Hls. rewrite battle_info_call in Hls. cbn [fst] in Hls.
  unfold battle_info_outcome in Hls.
  destruct (w <? 56); [discriminate|].
  destruct (sections_returned st w ls Hls) as (rows & melee & ranged & Hrows & Hm & Hr).
  destruct (ability_rows_shape st w rows Hrows) as (width & cells & Hw & Hc & ->).
  exists width, cells, melee, ranged. repeat (split; [assumption|]).
  unfold battle_info_sections in Hls. rewrite Hrows, Hm, Hr in Hls.
  cbn [rbind] in Hls. injection Hls as <-. reflexivity.
Qed.

Lemma C3_sections_in_fixed_order_witness :
  fst (call (battle_info (TU := TextUtils.model 4) 80) Examples.goblin)
  = inr Examples.goblin_lines
  /\ exists width cells melee ranged,
       ability_width Examples.goblin 80 = inr width
       /\ score_cells (TU := TextUtils.model 4) width (ability Examples.goblin)
          = inr cells
       /\ attack_paragraphs (TU := TextUtils.model 4) 80 melee_text
            (melee_attacks Examples.goblin) = inr melee
       /\ attack_paragraphs (TU := TextUtils.model 4) 80 ranged_text
            (ranged_attacks Examples.goblin) = inr ranged.
Proof.
  assert (H : fst (call (battle_info (TU := TextUtils.model 4) 80) Examples.goblin)
              = inr Examples.goblin_lines) by (vm_compute; reflexivity).
  split; [exact H|].
  destruct (C3_sections_in_fixed_order (TU := TextUtils.model 4)
              Examples.goblin 80 Examples.goblin_lines H)
    as (width & cells & melee & ranged & H1 & H2 & H3 & H4 & _).
  exists width, cells, melee, ranged.
  split; [exact H1|]. split; [exact H2|]. split; [exact H3 | exact H4].
Defined.




Lemma score_cells_each {FL : py_float} {TU : text_utils} width l cells :
  score_cells width l = inr cells ->
  Forall2 (fun entry cell =>
    exists modifier,
      calculate_ability_modifier (snd entry) = inr modifier
      /\ cell = centre_pad (score_text (snd entry) modifier) width) l cells.
Proof.
  revert cells. induction l as [|entry l IH]; cbn [score_cells]; intros cells.
  - intros [= <-]. constructor.
  - unfold score_cell.
    destruct (calculate_ability_modifier (snd entry)) as [e|m] eqn:E; cbn [rbind];
      [discriminate|].
    destruct (score_cells width l) as [e|rest]; cbn [rbind]; [discriminate|].
    intros [= <-]. constructor; [now exists m | now apply IH].
Qed.

(** C5: in [battle_info], for every stat block with six ability scores (at
    any width from 56 up to [2 ^ 50], where the float quotient is the exact
    one), each ability-name cell and each score cell is centred in a field of
    [floor (line_width / 6)] characters, 13 at width 80; six such fields take
    [6 * floor (line_width / 6) <= line_width] characters. *)
Theorem C5_ability_cells_width {FL : py_float} {TU : text_utils}
  (st : StatBlock) (w : Z) (ls : list string) :
  List.length (ability st) = 6%nat ->
  56 <= w < 2 ^ 50 ->
  fst (call (battle_info w) st) = inr ls ->
  exists cells,
    ability_width st w = inr (w / 6)
    /\ nth_error ls 4
       = Some (centre_pad
                 (Py.join EmptyString
                    (map (fun entry => centre_pad (fst entry) (w / 6)) (ability st)))
                 w)
    /\ nth_error ls 5 = Some (centre_pad (Py.join EmptyString cells) w)
    /\ Forall2 (fun entry cell =>
         exists modifier,
           calculate_ability_modifier (snd entry) = inr modifier
           /\ cell = centre_pad
                       (Py.str_int (snd entry) ++ "("
                        ++ Py.str_int_signed modifier ++ ")")%string
                       (w / 6)) (ability st) cells
    /\ 6 * (w / 6) <= w
    /\ (w = 80 -> w / 6 = 13).
Proof.
  intros Hsix Hw Hls.
  assert (Hwidth : ability_width st w = inr (w / 6)).
  { unfold ability_width, Py.dict_len. rewrite Hsix.
    change (Z.of_nat 6) with 6. apply floor_truediv_exact; [lia|].
    change (2 ^ 53) with (2 ^ 50 * 8). lia. }
  rewrite battle_info_call in Hls. cbn [fst] in Hls.
  unfold battle_info_outcome in Hls. destruct (w <? 56); [discriminate|].
  destruct (sections_returned st w ls Hls) as (rows & melee & ranged & Hrows & Hm & Hr).
  destruct (ability_rows_shape st w rows Hrows) as (width & cells & Hw' & Hc & ->).
  rewrite Hwidth in Hw'. injection Hw' as <-.
  unfold battle_info_sections in Hls. rewrite Hrows, Hm, Hr in Hls.
  cbn [rbind] in Hls. injection Hls as <-.
  exists cells. split; [exact Hwidth|].
  split; [reflexivity|]. split; [reflexivity|].
  split; [exact (score_cells_each _ _ _ Hc)|].
  split; [apply Z.mul_div_le; lia | intros ->; reflexivity].
Qed.

Lemma C5_ability_cells_width_witness :
  List.length (ability Examples.goblin) = 6%nat
  /\ 56 <= 80 < 2 ^ 50
  /\ fst (call (battle_info (TU := TextUtils.model 4) 80) Examples.goblin)
     = inr Examples.goblin_lines
  /\ ability_width Examples.goblin 80 = inr 13.
Proof.
  assert (H1 : List.length (ability Examples.goblin) = 6%nat) by reflexivity.
  assert (H2 : 56 <= 80 < 2 ^ 50) by (split; [lia | reflexivity]).
  assert (H3 : fst (call (battle_info (TU := TextUtils.model 4) 80) Examples.goblin)
               = inr Examples.goblin_lines) by (vm_compute; reflexivity).
  split; [exact H1|]. split; [exact H2|]. split; [exact H3|].
  destruct (C5_ability_cells_width (TU := TextUtils.model 4) Examples.goblin 80
              Examples.goblin_lines H1 H2 H3) as (cells & Hwidth & _).
  exact Hwidth.
Defined.







(** C8: [summary_info] and [battle_info] leave the stat block as it was,
    whether they return or raise, and a second call on the object left by
    the first gives the same result: the lines are a function of the stat
    block and the width (and the quantity) alone. *)
Theorem C8_rendering_leaves_the_stat_block {FL : py_float} {TU : text_utils}
  (st : StatBlock) (w : Z) (q : option Z) :
  snd (call (battle_info w) st) = st
  /\ snd (call (summary_info w q) st) = st
  /\ fst (call (battle_info w) (snd (call (battle_info w) st)))
     = fst (call (battle_info w) st)
  /\ fst (call (summary_info w q) (snd (call (summary_info w q) st)))
     = fst (call (summary_info w q) st)
  /\ fst (call (battle_info w) (snd (call (summary_info w q) st)))
     = fst (call (battle_info w) st)
  /\ (forall fr out, battle_info w (enter st) = inr (out, fr) -> self fr = st)
  /\ (forall fr e, battle_info w (enter st) = inl (e, fr) -> self fr = st).
Proof.
  rewrite ?battle_info_call, ?summary_info_call. cbn [fst snd].
  rewrite ?battle_info_call. cbn [fst snd].
  repeat (split; [reflexivity|]).
  destruct (battle_info_run st w) as (fr' & E & Hs).
  split; intros fr x Hx; rewrite E in Hx;
    destruct (battle_info_outcome st w); congruence.
Qed.


Lemma with_info_cases details text :
  with_info details text
  = inr match Py.getitem details "info" with
        | inr info => (text ++ " " ++ info ++ ".")%string
        | inl _ => text
        end.
Proof.
  unfold with_info. destruct (Py.contains "info" details) eqn:E.
  - destruct (getitem_present _ _ E) as (v & ->). reflexivity.
  - now rewrite (getitem_absent _ _ E).
Qed.




(** * Further properties of the renderer *)

Section SummaryFacts.

Context {FL : py_float} {TU : text_utils}.

Lemma len_str_mul_any c w :
  Py.len (Py.str_mul (String c EmptyString) w) = Z.max 0 w.
Proof.
  unfold Py.str_mul. rewrite len_repeat_str.
  change (Py.len (String c EmptyString)) with 1. lia.
Qed.



End SummaryFacts.



Section ModifierFacts.

(** In the exact range, an even score and the odd score after it have the
    same modifier, half the even score less five: the modifier goes up by
    one every two points of score. *)
Theorem ability_modifier_steps (k : Z) :
  Z.abs (2 * k - 10) < 2 ^ 52 - 2 ->
  calculate_ability_modifier (2 * k) = inr (k - 5)
  /\ calculate_ability_modifier (2 * k + 1) = inr (k - 5)
  /\ calculate_ability_modifier (2 * k + 2) = inr (k - 4).
Proof.
  intros H.
  rewrite !calculate_ability_modifier_exact by lia.
  repeat split; f_equal.
  - replace (2 * k - 10) with ((k - 5) * 2) by ring. apply Z.div_mul. lia.
  - symmetry. apply (Z.div_unique (2 * k + 1 - 10) 2 (k - 5) 1); lia.
  - replace (2 * k + 2 - 10) with ((k - 4) * 2) by ring. apply Z.div_mul. lia.
Qed.

(** In the exact range, a higher score never has a lower modifier. *)
Theorem ability_modifier_monotone (s s' m m' : Z) :
  Z.abs (s - 10) < 2 ^ 52 -> Z.abs (s' - 10) < 2 ^ 52 ->
  s <= s' ->
  calculate_ability_modifier s = inr m ->
  calculate_ability_modifier s' = inr m' ->
  m <= m'.
Proof.
  intros Hs Hs' Hle.
  rewrite !calculate_ability_modifier_exact by assumption.
  intros [= <-] [= <-]. apply Z.div_le_mono; lia.
Qed.

(** [calculate_ability_modifier] divides by the constant two: the only
    exception it can raise is [OverflowError]. *)
Lemma ability_modifier_error score e :
  calculate_ability_modifier score = inl e -> e = OverflowError.
Proof.
  unfold calculate_ability_modifier, Float.floor_truediv, Float.truediv.
  change (2 =? 0) with false. cbv iota.
  destruct (score - 10 =? 0); [discriminate|].
  destruct (Float.divide_pos _ _); [discriminate|].
  now intros [= <-].
Qed.

End ModifierFacts.

Lemma ability_modifier_steps_witness :
  Z.abs (2 * 7 - 10) < 2 ^ 52 - 2
  /\ calculate_ability_modifier (2 * 7 + 1) = inr (7 - 5).
Proof.
  assert (H : Z.abs (2 * 7 - 10) < 2 ^ 52 - 2) by reflexivity.
  split; [exact H|].
  exact (proj1 (proj2 (ability_modifier_steps 7 H))).
Defined.

Lemma ability_modifier_monotone_witness :
  Z.abs (8 - 10) < 2 ^ 52 /\ Z.abs (15 - 10) < 2 ^ 52 /\ 8 <= 15
  /\ calculate_ability_modifier 8 = inr (-1)
  /\ calculate_ability_modifier 15 = inr 2
  /\ -1 <= 2.
Proof.
  assert (H1 : Z.abs (8 - 10) < 2 ^ 52) by reflexivity.
  assert (H2 : Z.abs (15 - 10) < 2 ^ 52) by reflexivity.
  assert (H3 : 8 <= 15) by lia.
  assert (H4 : calculate_ability_modifier 8 = inr (-1)) by (vm_compute; reflexivity).
  assert (H5 : calculate_ability_modifier 15 = inr 2) by (vm_compute; reflexivity).
  repeat (split; [assumption|]).
  exact (ability_modifier_monotone 8 15 (-1) 2 H1 H2 H3 H4 H5).
Defined.

Section OverflowFacts.

Import Float.

Lemma divide_pos_two_overflow a :
  2 ^ 1025 <= a -> divide_pos a 2 = None.
Proof.
  intros Ha.
  assert (Hpos : 0 < a) by (assert (0 < 2 ^ 1025) by reflexivity; lia).
  pose proof (Z.log2_spec a Hpos) as [Hlo Hhi].
  assert (Hla : 1025 <= Z.log2 a) by (apply Z.log2_le_pow2; [lia | exact Ha]).
  unfold divide_pos, ilog2_ratio. change (Z.log2 2) with 1. cbv zeta.
  set (d := Z.log2 a - 1).
  assert (Hd : 2 * 2 ^ d = 2 ^ Z.log2 a).
  { unfold d. replace (Z.log2 a) with (1 + (Z.log2 a - 1)) at 2 by lia.
    rewrite Z.pow_add_r by lia. reflexivity. }
  assert (Hleb : scaled_leb 2 d a = true).
  { unfold scaled_leb. destruct (Z.leb_spec 0 d); [|unfold d in *; lia].
    apply Z.leb_le. lia. }
  rewrite Hleb.
  replace (Z.max (d - 52) (-1074)) with (d - 52) by (unfold d; lia).
  set (e := d - 52).
  assert (He : 972 <= e) by (unfold e, d; lia).
  destruct (Z.leb_spec 0 e); [|lia].
  set (m := round_half_even a (2 * 2 ^ e)).
  assert (Hpe : 0 < 2 ^ e) by (apply Z.pow_pos_nonneg; lia).
  assert (Hm : 2 ^ 52 <= m).
  { assert (Hq : 2 ^ 52 <= a / (2 * 2 ^ e)).
    { apply Z.div_le_lower_bound; [lia|].
      replace (2 * 2 ^ e * 2 ^ 52) with (2 * 2 ^ d); [lia|].
      unfold e. replace d with (d - 52 + 52) at 1 by lia.
      rewrite Z.pow_add_r by lia. ring. }
    destruct (round_half_even_cases a (2 * 2 ^ e)) as [E | [E _]];
      fold m in E; lia. }
  assert (Hm0 : 0 < m) by (assert (0 < 2 ^ 52) by reflexivity; lia).
  destruct (Z.eqb_spec m 0); [lia|].
  assert (Hlm : 52 <= Z.log2 m) by (apply Z.log2_le_pow2; [lia | exact Hm]).
  destruct (Z.leb_spec 1024 (Z.log2 m + e)); [reflexivity | unfold e, d in *; lia].
Qed.

(** A score that is [2 ^ 1025] or more away from ten is beyond the floats:
    [calculate_ability_modifier] raises [OverflowError] on it, and
    [OverflowError] is the only exception it ever raises. *)
Theorem ability_modifier_overflow (score : Z) :
  2 ^ 1025 <= Z.abs (score - 10) ->
  calculate_ability_modifier score = inl OverflowError
  /\ forall s e, calculate_ability_modifier s = inl e -> e = OverflowError.
Proof.
  intros H. split; [|exact ability_modifier_error].
  assert (0 < 2 ^ 1025) by reflexivity.
  unfold calculate_ability_modifier, floor_truediv, truediv.
  change (2 =? 0) with false. cbv iota.
  destruct (Z.eqb_spec (score - 10) 0); [lia|].
  change (Z.abs 2) with 2. now rewrite (divide_pos_two_overflow _ H).
Qed.

End OverflowFacts.

Lemma ability_modifier_overflow_witness :
  2 ^ 1025 <= Z.abs (2 ^ 1025 + 10 - 10)
  /\ calculate_ability_modifier (2 ^ 1025 + 10) = inl OverflowError.
Proof.
  assert (H : 2 ^ 1025 <= Z.abs (2 ^ 1025 + 10 - 10)) by (vm_compute; discriminate).
  split; [exact H|].
  exact (proj1 (ability_modifier_overflow (2 ^ 1025 + 10) H)).
Defined.

Section ErrorFacts.

Context {FL : py_float} {TU : text_utils}.

Lemma floor_truediv_zero_division a b :
  Float.floor_truediv a b = inl ZeroDivisionError <-> b = 0.
Proof.
  unfold Float.floor_truediv, Float.truediv.
  destruct (Z.eqb_spec b 0) as [->|Hb].
  - split; reflexivity.
  - split; [|contradiction].
    destruct (a =? 0); [discriminate|].
    destruct (Float.divide_pos _ _); discriminate.
Qed.

Lemma score_cells_overflow width l e :
  score_cells width l = inl e -> e = OverflowError.
Proof.
  induction l as [|entry l IH]; cbn [score_cells]; [discriminate|].
  unfold score_cell.
  destruct (calculate_ability_modifier (snd entry)) as [e'|m] eqn:E; cbn [rbind].
  - intros [= <-]. exact (ability_modifier_error _ _ E).
  - destruct (score_cells width l) as [e'|cells]; cbn [rbind]; [|discriminate].
    intros [= <-]. now apply IH.
Qed.

Lemma ability_rows_zero_division st w :
  ability_rows st w = inl ZeroDivisionError <-> ability st = [].
Proof.
  split; [|apply no_ability_rows].
  unfold ability_rows, ability_width.
  destruct (Float.floor_truediv w (Py.dict_len (ability st))) as [e|width] eqn:E;
    cbn [rbind].
  - intros [= ->]. apply floor_truediv_zero_division in E.
    unfold Py.dict_len in E. destruct (ability st); [reflexivity | discriminate].
  - destruct (score_cells width (ability st)) as [e|cells] eqn:E'; cbn [rbind];
      [|discriminate].
    intros [= ->]. apply score_cells_overflow in E'. discriminate.
Qed.

(** How the sections fail: in the ability rows, or else on a required key
    of an attack. *)
Lemma sections_error_cases st w e :
  battle_info_sections st w = inl e ->
  ability_rows st w = inl e
  \/ (exists rows k,
        ability_rows st w = inr rows
        /\ In k (required_melee_keys ++ required_ranged_keys)%list
        /\ e = KeyError k).
Proof.
  intros H. destruct (ability_rows st w) as [e'|rows] eqn:E.
  - left. unfold battle_info_sections in H. rewrite E in H. exact H.
  - right. destruct (attack_keys_ok st) eqn:K.
    + destruct (sections_complete st w rows E K) as (ls & Hls). congruence.
    + destruct (sections_key_error st w rows E K) as (k & Hk & Hls).
      exists rows, k. split; [reflexivity|]. split; [exact Hk | congruence].
Qed.


(** At a width of at least 56, [battle_info] raises [ZeroDivisionError]
    exactly when the ability mapping is empty: then it does so whatever the
    attack tables hold, and nothing else raises it. *)
Theorem battle_info_zero_division (st : StatBlock) (w : Z) :
  56 <= w ->
  (fst (call (battle_info w) st) = inl ZeroDivisionError <-> ability st = []).
Proof.
  intros Hw. rewrite battle_info_call. cbn [fst]. unfold battle_info_outcome.
  destruct (Z.ltb_spec w 56) as [|_]; [lia|]. split.
  - intros Herr.
    destruct (sections_error_cases st w _ Herr) as [Hr | (rows & k & _ & _ & Hk)];
      [|discriminate].
    exact (proj1 (ability_rows_zero_division st w) Hr).
  - intros Hnil. unfold battle_info_sections.
    now rewrite (no_ability_rows st w Hnil).
Qed.


End ErrorFacts.

Lemma battle_info_zero_division_witness :
  56 <= 80
  /\ ability Examples.no_abilities_keyless = []
  /\ fst (call (battle_info (TU := TextUtils.model 4) 80)
            Examples.no_abilities_keyless) = inl ZeroDivisionError.
Proof.
  assert (H1 : 56 <= 80) by lia.
  assert (H2 : ability Examples.no_abilities_keyless = []) by reflexivity.
  split; [exact H1|]. split; [exact H2|].
  exact (proj2 (battle_info_zero_division (TU := TextUtils.model 4)
                  Examples.no_abilities_keyless 80 H1) H2).
Defined.



Section KeyOrderFacts.

Context {FL : py_float} {TU : text_utils}.

Lemma melee_text_first_missing :
  raises_first_missing required_melee_keys melee_text.
Proof.
  intros [name details]. unfold melee_text, first_missing, required_melee_keys.
  cbn [find fst snd].
  destruct (Py.contains "hit" details) eqn:E1; cbn [negb];
    [destruct (getitem_present _ _ E1) as (v1 & ->)
    | now rewrite (getitem_absent _ _ E1)]; cbn [rbind].
  destruct (Py.contains "reach" details) eqn:E2; cbn [negb];
    [destruct (getitem_present _ _ E2) as (v2 & ->)
    | now rewrite (getitem_absent _ _ E2)]; cbn [rbind].
  destruct (Py.contains "targets" details) eqn:E3; cbn [negb];
    [destruct (getitem_present _ _ E3) as (v3 & ->)
    | now rewrite (getitem_absent _ _ E3)]; cbn [rbind].
  destruct (Py.contains "damage" details) eqn:E4; cbn [negb];
    [destruct (getitem_present _ _ E4) as (v4 & ->)
    | now rewrite (getitem_absent _ _ E4)]; cbn [rbind].
  apply with_info_returns.
Qed.

Lemma ranged_text_first_missing :
  raises_first_missing required_ranged_keys ranged_text.
Proof.
  intros [name details]. unfold ranged_text, first_missing, required_ranged_keys.
  cbn [find fst snd].
  destruct (Py.contains "hit" details) eqn:E1; cbn [negb];
    [destruct (getitem_present _ _ E1) as (v1 & ->)
    | now rewrite (getitem_absent _ _ E1)]; cbn [rbind].
  destruct (Py.contains "range" details) eqn:E2; cbn [negb];
    [destruct (getitem_present _ _ E2) as (v2 & ->)
    | now rewrite (getitem_absent _ _ E2)]; cbn [rbind].
  destruct (Py.contains "targets" details) eqn:E3; cbn [negb];
    [destruct (getitem_present _ _ E3) as (v3 & ->)
    | now rewrite (getitem_absent _ _ E3)]; cbn [rbind].
  destruct (Py.contains "damage" details) eqn:E4; cbn [negb];
    [destruct (getitem_present _ _ E4) as (v4 & ->)
    | now rewrite (getitem_absent _ _ E4)]; cbn [rbind].
  apply with_info_returns.
Qed.

Lemma attack_paragraphs_first_missing keys text w x :
  raises_first_missing keys text ->
  match table_key_error keys x with
  | Some k => attack_paragraphs w text x = inl (KeyError k)
  | None => exists out, attack_paragraphs w text x = inr out
  end.
Proof.
  intros Hspec. unfold table_key_error, attack_paragraphs.
  destruct x as [d|]; [|now eexists].
  assert (Hcollect :
    match first_key_error keys d with
    | Some k =>
        collect (fun entry =>
          rbind (text entry) (fun t => inr (format_indented_paragraph t w))) d
        = inl (KeyError k)
    | None =>
        exists out,
          collect (fun entry =>
            rbind (text entry) (fun t => inr (format_indented_paragraph t w))) d
          = inr out
    end).
  { induction d as [|entry d IH]; cbn [first_key_error collect]; [now eexists|].
    specialize (Hspec entry).
    destruct (first_missing keys (snd entry)) as [k|].
    - now rewrite Hspec.
    - destruct Hspec as (t & ->). cbn [rbind].
      destruct (first_key_error keys d) as [k|].
      + now rewrite IH.
      + destruct IH as (out & ->). cbn. now eexists. }
  destruct d as [|entry d]; [now eexists|exact Hcollect].
Qed.


End KeyOrderFacts.


Section FieldFacts.

Context {FL : py_float} {TU : text_utils}.

Lemma optional_present {A : Type} `{Truthy A} (x : option A)
  (g : A -> list string) :
  optional (present x) g = optional x g.
Proof.
  unfold optional, present. destruct x as [a|]; [|reflexivity].
  destruct (truth a) eqn:E; [now rewrite E | reflexivity].
Qed.

Lemma attack_paragraphs_present w text x :
  attack_paragraphs w text (present x) = attack_paragraphs w text x.
Proof.
  unfold attack_paragraphs, present. destruct x as [d|]; [|reflexivity].
  destruct (truth d) eqn:E; [now rewrite E | reflexivity].
Qed.

Lemma or_else_present {A : Type} (x : option (list A)) default :
  Py.or_else (present x) default = Py.or_else x default.
Proof.
  unfold Py.or_else, present. destruct x as [l|]; [|reflexivity].
  destruct (truth l) eqn:E; [now rewrite E | reflexivity].
Qed.

(** [battle_info] cannot tell an empty optional field from an absent one,
    whichever field it is: the eleven optional mappings and lists, the
    multiattack and the description.  Making every empty one [None] changes
    neither the lines nor the exception. *)
Theorem battle_info_normalize (st : StatBlock) (w : Z) :
  fst (call (battle_info w) (normalize st)) = fst (call (battle_info w) st).
Proof.
  rewrite !battle_info_call. cbn [fst]. unfold battle_info_outcome.
  destruct (w <? 56); [reflexivity|].
  unfold battle_info_sections.
  change (ability_rows (normalize st) w) with (ability_rows st w).
  unfold pairs_section, list_section, named_paragraphs, languages_lines,
    multiattack_lines, description_lines.
  cbn [normalize saving_throws skills damage_vulnerabilities damage_resistances
       damage_immunities condition_immunities special_senses languages
       special_traits melee_attacks ranged_attacks multiattack other_actions
       description].
  rewrite !attack_paragraphs_present, !or_else_present, !optional_present.
  reflexivity.
Qed.

(** The name, the size, the type and the alignment are the business of
    [summary_info] alone: [battle_info] gives the same result when they are
    changed, and [summary_info] the same result on any two stat blocks that
    agree on them. *)
Theorem identity_fields_only_in_summary (st st' : StatBlock) (w : Z)
  (q : option Z) (n s t a : string) :
  fst (call (battle_info w) (with_identity n s t a st))
  = fst (call (battle_info w) st)
  /\ fst (call (summary_info w q) (with_identity (name st) (size st)
                                     (creature_type st) (alignment st) st'))
     = fst (call (summary_info w q) st).
Proof.
  rewrite !battle_info_call, !summary_info_call. cbn [fst].
  split; reflexivity.
Qed.

(** With any number [n >= 1] of abilities and a width for which the float
    quotient is exact, the cell width is [floor (line_width / n)]: the [n]
    cells together never take more than the line, and leave fewer than [n]
    columns of it unused. *)
Theorem ability_width_fits (st : StatBlock) (w : Z) :
  ability st <> [] ->
  0 <= w ->
  w * Py.dict_len (ability st) < 2 ^ 53 ->
  exists width,
    ability_width st w = inr width
    /\ width = w / Py.dict_len (ability st)
    /\ Py.dict_len (ability st) * width <= w
       < Py.dict_len (ability st) * width + Py.dict_len (ability st).
Proof.
  intros Hne Hw Hexact.
  assert (Hn : 0 < Py.dict_len (ability st)).
  { unfold Py.dict_len. destruct (ability st); [contradiction | cbn; lia]. }
  exists (w / Py.dict_len (ability st)). split.
  - unfold ability_width. apply floor_truediv_exact; [exact Hn|].
    now rewrite (Z.abs_eq w Hw).
  - split; [reflexivity|].
    set (n := Py.dict_len (ability st)) in *.
    pose proof (Z.div_mod w n ltac:(lia)) as Hdm.
    pose proof (Z.mod_pos_bound w n Hn). lia.
Qed.

End FieldFacts.

Lemma ability_width_fits_witness :
  ability Examples.goblin <> []
  /\ 0 <= 80
  /\ 80 * Py.dict_len (ability Examples.goblin) < 2 ^ 53
  /\ exists width, ability_width Examples.goblin 80 = inr width.
Proof.
  assert (H1 : ability Examples.goblin <> []) by discriminate.
  assert (H2 : 0 <= 80) by lia.
  assert (H3 : 80 * Py.dict_len (ability Examples.goblin) < 2 ^ 53) by reflexivity.
  split; [exact H1|]. split; [exact H2|]. split; [exact H3|].
  destruct (ability_width_fits Examples.goblin 80 H1 H2 H3) as (width & Hwidth & _).
  exists width. exact Hwidth.
Defined.

(** * The command group *)

Section CliFacts.

Import Cli.

Lemma prefix_refl s : String.prefix s s = true.
Proof.
  induction s as [|a s IH]; cbn; [reflexivity|].
  destruct (Ascii.ascii_dec a a); [exact IH | contradiction].
Qed.

Lemma insert_sorted_perm s l : Permutation (insert_sorted s l) (s :: l).
Proof.
  induction l as [|x l IH]; cbn [insert_sorted]; [reflexivity|].
  destruct (String.leb s x); [reflexivity|].
  rewrite IH. apply perm_swap.
Qed.

Lemma sorted_perm l : Permutation (sorted l) l.
Proof.
  induction l as [|x l IH]; cbn [sorted fold_right]; [reflexivity|].
  fold (sorted l). rewrite insert_sorted_perm. now rewrite IH.
Qed.

Lemma sorted_in l x : In x (sorted l) <-> In x l.
Proof.
  split; apply Permutation_in; [|symmetry]; apply sorted_perm.
Qed.

Lemma insert_sorted_ordered s l :
  Sorted (fun a b => String.leb a b = true) l ->
  Sorted (fun a b => String.leb a b = true) (insert_sorted s l).
Proof.
  induction 1 as [|x l Hs IH Hhd]; cbn [insert_sorted].
  - repeat constructor.
  - destruct (String.leb s x) eqn:E.
    + constructor; [now constructor | now constructor].
    + constructor; [exact IH|].
      assert (Hxs : String.leb x s = true).
      { destruct (String.leb_total s x) as [H|H]; [congruence | exact H]. }
      destruct Hhd as [|y l' Hxy]; cbn [insert_sorted].
      * now constructor.
      * destruct (String.leb s y); now constructor.
Qed.

Lemma sorted_ordered l : Sorted (fun a b => String.leb a b = true) (sorted l).
Proof.
  induction l as [|x l IH]; cbn [sorted fold_right]; [constructor|].
  now apply insert_sorted_ordered.
Qed.

Lemma getitem_in {V : Type} (d : Py.dict V) k v :
  Py.getitem d k = inr v -> In (k, v) d.
Proof.
  induction d as [|[k' v'] d IH]; cbn [Py.getitem]; [discriminate|].
  destruct (String.eqb_spec k' k) as [->|].
  - intros [= ->]. now left.
  - intros H. right. now apply IH.
Qed.

Lemma getitem_nodup {V : Type} (d : Py.dict V) k v :
  NoDup (map fst d) -> In (k, v) d -> Py.getitem d k = inr v.
Proof.
  induction d as [|[k' v'] d IH]; cbn [map fst Py.getitem]; [contradiction|].
  intros Hnd [[= -> ->] | Hin].
  - now rewrite String.eqb_refl.
  - inversion Hnd as [|? ? Hnotin Hnd']; subst.
    destruct (String.eqb_spec k' k) as [->|].
    + exfalso. apply Hnotin. now apply (in_map fst _ (k, v)).
    + now apply IH.
Qed.

Lemma filter_only {A : Type} (f : A -> bool) (l : list A) (x : A) :
  NoDup l -> In x l -> f x = true ->
  (forall y, In y l -> f y = true -> y = x) ->
  filter f l = [x].
Proof.
  induction l as [|a l IH]; [contradiction|].
  intros Hnd Hin Hfx Huniq. inversion Hnd as [|? ? Hnotin Hnd']; subst.
  cbn [filter]. destruct Hin as [-> | Hin].
  - rewrite Hfx. f_equal.
    destruct (filter f l) as [|y rest] eqn:E; [reflexivity|].
    assert (Hy : In y (filter f l)) by (rewrite E; now left).
    apply filter_In in Hy. destruct Hy as [Hy Hfy].
    assert (y = x) by (apply Huniq; [now right | exact Hfy]). now subst.
  - destruct (f a) eqn:Hfa.
    + assert (a = x) by (apply Huniq; [now left | exact Hfa]). now subst.
    + apply IH; auto. intros y Hy. apply Huniq. now right.
Qed.

Lemma filter_none {A : Type} (f : A -> bool) (l : list A) :
  (forall y, In y l -> f y = false) -> filter f l = [].
Proof.
  induction l as [|a l IH]; [reflexivity|]. intros H. cbn [filter].
  rewrite (H a) by now left. apply IH. intros y Hy. apply H. now right.
Qed.

Lemma get_command_resolves {C : Type} (commands : Py.dict C)
  (cmd_name name : string) (c : C) :
  NoDup (map fst commands) ->
  In (name, c) commands ->
  String.prefix cmd_name name = true ->
  (forall other,
     In other (map fst commands) -> String.prefix cmd_name other = true ->
     other = name) ->
  get_command commands cmd_name = Command c.
Proof.
  intros Hnd Hin Hpre Huniq.
  assert (Hname : group_get_command commands name = Some c).
  { unfold group_get_command. now rewrite (getitem_nodup _ _ _ Hnd Hin). }
  unfold get_command, group_get_command.
  destruct (Py.getitem commands cmd_name) as [e|rv] eqn:E.
  - cbv zeta. unfold list_commands.
    rewrite (filter_only _ (sorted (map fst commands)) name).
    + fold (group_get_command commands name). now rewrite Hname.
    + apply (Permutation_NoDup (l := map fst commands));
        [symmetry; apply sorted_perm | exact Hnd].
    + apply sorted_in. now apply (in_map fst _ (name, c)).
    + exact Hpre.
    + intros y Hy. apply Huniq. now apply sorted_in.
  - apply getitem_in in E.
    assert (cmd_name = name).
    { apply Huniq; [now apply (in_map fst _ (cmd_name, rv)) | apply prefix_refl]. }
    subst cmd_name. f_equal.
    pose proof (getitem_nodup _ _ _ Hnd E) as E1.
    pose proof (getitem_nodup _ _ _ Hnd Hin) as E2. congruence.
Qed.


(** A name that is the beginning of no registered name resolves to [None]:
    no error is raised for an unknown command. *)
Theorem get_command_no_match {C : Type} (commands : Py.dict C)
  (cmd_name : string) :
  (forall other,
     In other (map fst commands) -> String.prefix cmd_name other = false) ->
  get_command commands cmd_name = NoCommand.
Proof.
  intros Hnone. unfold get_command, group_get_command.
  destruct (Py.getitem commands cmd_name) as [e|rv] eqn:E.
  - cbv zeta. unfold list_commands. rewrite filter_none; [reflexivity|].
    intros y Hy. apply Hnone. now apply sorted_in.
  - apply getitem_in in E.
    assert (H : String.prefix cmd_name cmd_name = false)
      by (apply Hnone; now apply (in_map fst _ (cmd_name, rv))).
    rewrite prefix_refl in H. discriminate.
Qed.


(** On the four commands of [cli], every non-empty beginning of a command
    name selects that command (their first letters differ), while the empty
    name is ambiguous between all four. *)
Theorem cli_prefix_resolves (cmd_name name : string) (c : command) :
  In (name, c) cli ->
  cmd_name <> EmptyString ->
  String.prefix cmd_name name = true ->
  get_command cli cmd_name = Command c
  /\ get_command cli EmptyString
     = UsageError
         "Ambiguous command. Too many matches: battle, cheatsheet, npcs, scene".
Proof.
  intros Hin Hne Hpre. split; [|vm_compute; reflexivity].
  refine (get_command_resolves cli cmd_name name c _ Hin Hpre _).
  - unfold cli. cbn [map fst].
    repeat (constructor; [cbn [In]; intuition discriminate|]). constructor.
  - destruct cmd_name as [|a rest]; [contradiction|].
    intros other Hother Hp. unfold cli in Hin, Hother. cbn [map fst In] in Hin, Hother.
    destruct Hin as [[= <- <-] | [[= <- <-] | [[= <- <-] | [[= <- <-] | []]]]];
      cbn [String.prefix] in Hpre;
      (destruct (Ascii.ascii_dec a _) as [->|]; [|discriminate]);
      destruct Hother as [<- | [<- | [<- | [<- | []]]]];
      try reflexivity; cbn in Hp; discriminate.
Qed.

End CliFacts.


Lemma get_command_no_match_witness :
  (forall other,
     In other (map fst Cli.cli) -> String.prefix "x" other = false)
  /\ Cli.get_command Cli.cli "x" = Cli.NoCommand.
Proof.
  assert (H : forall other,
    In other (map fst Cli.cli) -> String.prefix "x" other = false).
  { intros other [<- | [<- | [<- | [<- | []]]]]; reflexivity. }
  split; [exact H|].
  exact (get_command_no_match Cli.cli "x" H).
Defined.


Lemma cli_prefix_resolves_witness :
  In ("cheatsheet"%string, Cli.cheatsheet) Cli.cli
  /\ "ch"%string <> EmptyString
  /\ String.prefix "ch" "cheatsheet" = true
  /\ Cli.get_command Cli.cli "ch" = Cli.Command Cli.cheatsheet.
Proof.
  assert (H1 : In ("cheatsheet"%string, Cli.cheatsheet) Cli.cli) by (cbn; auto 6).
  assert (H2 : "ch"%string <> EmptyString) by discriminate.
  assert (H3 : String.prefix "ch" "cheatsheet" = true) by reflexivity.
  split; [exact H1|]. split; [exact H2|]. split; [exact H3|].
  exact (proj1 (cli_prefix_resolves "ch" "cheatsheet" Cli.cheatsheet H1 H2 H3)).
Defined.
